(** * sqluser: accounts, passwords, tokens and ban status on a relational store

    A shallow embedding of [sqluser.go] (package [sqluser] of herb-go/plugin)
    and the properties of its data mappers.

    Go strings are byte sequences: they are embedded as [string] (a list of
    8-bit characters), [[]byte] as [list byte].  Go's [(value, error)] results
    are pairs whose second component is [None] for [nil].  The operations run
    in a state monad over the database and the world (clock, generators); an
    early [return] is a branch that ends the monadic computation, and
    [defer tx.Rollback()] wraps the rest of the function body.

    What the package takes from outside is modelled as follows.
    - The database: four tables of rows kept in insertion order, without
      unique constraints (the package enforces uniqueness itself, by a check
      before the insert).  The four table names are taken to name four
      different tables.  [RowsAffected] of an UPDATE is the number of rows
      its WHERE clause matches.
    - Transactions: [Begin] gives a private copy of the committed store,
      [Exec] on the transaction changes the copy, [Commit] publishes it,
      [Rollback] drops it; a query on the database handle reads the
      committed store.  Operations run one after the other.
    - Failures: a fault plan says which call of the database fails, and with
      which error; the theorems quantify over it.
    - [crypto/sha256], [encoding/hex], [bytes.Compare], [time.Now]: by their
      documented behaviour; SHA-256 itself is executable.
    - [crypto/rand] and the uuid library: a source of bytes that a reading
      consumes or that fails, and a source of strings that never fails. *)

From Stdlib Require Import ZArith List Lia Bool.
From Stdlib.Strings Require Import String Ascii Byte.
From stdpp Require Import base option list strings pretty gmap.

Import ListNotations.
Local Open Scope Z_scope.
Local Open Scope string_scope.
Local Open Scope list_scope.

(** ** Bytes and strings *)

Definition byte_to_Z (b : byte) : Z := Z.of_N (Byte.to_N b).

Definition byte_of_Z (z : Z) : byte :=
  match Byte.of_N (Z.to_N (z mod 256)) with
  | Some b => b
  | None => x00
  end.

#[global] Instance byte_eq_decision : EqDecision byte := Byte.byte_eq_dec.

(** The conversion [[]byte(s)]. *)
Definition bytes_of_string (s : string) : list byte := list_byte_of_string s.

(** ** encoding/hex *)

Module hex.

Definition hextable : string := "0123456789abcdef".

Definition digit (n : Z) : ascii :=
  match String.get (Z.to_nat n) hextable with
  | Some c => c
  | None => "0"%char
  end.

(** [hex.EncodeToString]: two lower-case digits per byte, high nibble first. *)
Fixpoint EncodeToString (src : list byte) : string :=
  match src with
  | [] => EmptyString
  | b :: rest =>
      String (digit (Z.shiftr (byte_to_Z b) 4))
        (String (digit (Z.land (byte_to_Z b) 15)) (EncodeToString rest))
  end.

End hex.

(** ** crypto/sha256

    [Sum256] is SHA-256 as FIPS 180-4 defines it, on 32-bit words carried in
    [Z] with the wrap-around written out.  A [digest] is the running hash
    behind Go's [hash.Hash] interface: [Write] absorbs more input, [Sum]
    appends the digest of everything written so far and leaves the running
    state as it was. *)

Module sha256.

Definition add32 (x y : Z) : Z := (x + y) mod 2 ^ 32.

Definition rotr (n x : Z) : Z :=
  Z.lor (Z.shiftr x n) (Z.land (Z.shiftl x (32 - n)) 0xFFFFFFFF).

Definition Ch (x y z : Z) : Z :=
  Z.lxor (Z.land x y) (Z.land (Z.lxor x 0xFFFFFFFF) z).

Definition Maj (x y z : Z) : Z :=
  Z.lxor (Z.lxor (Z.land x y) (Z.land x z)) (Z.land y z).

Definition bsig0 (x : Z) : Z := Z.lxor (Z.lxor (rotr 2 x) (rotr 13 x)) (rotr 22 x).
Definition bsig1 (x : Z) : Z := Z.lxor (Z.lxor (rotr 6 x) (rotr 11 x)) (rotr 25 x).
Definition ssig0 (x : Z) : Z := Z.lxor (Z.lxor (rotr 7 x) (rotr 18 x)) (Z.shiftr x 3).
Definition ssig1 (x : Z) : Z := Z.lxor (Z.lxor (rotr 17 x) (rotr 19 x)) (Z.shiftr x 10).

(** The constants are derived as FIPS 180-4 defines them: the first 32 bits
    of the fractional parts of the cube roots of the first 64 primes ([_K],
    section 4.2.2) and of the square roots of the first 8 primes ([init],
    section 5.3.3). *)

Definition is_prime (p : Z) : bool :=
  forallb (fun d => negb (p mod d =? 0)%Z) (seqZ 2 (p - 2)).

Definition primes (n : nat) : list Z :=
  take n (filter (fun p => is_prime p = true) (seqZ 2 400)).

(** The integer [k]-th root of [x], by bisection between [lo] and [hi]. *)
Fixpoint iroot (fuel : nat) (k x lo hi : Z) : Z :=
  match fuel with
  | O => lo
  | S fuel' =>
      let mid := (lo + hi) / 2 in
      if (mid ^ k <=? x)%Z then iroot fuel' k x mid hi else iroot fuel' k x lo mid
  end.

(** The first 32 bits of the fractional part of the [k]-th root of [p]. *)
Definition frac_root (k p : Z) : Z :=
  iroot 64 k (p * 2 ^ (32 * k)) 0 (2 ^ 42) mod 2 ^ 32.

Definition _K : list Z := map (frac_root 3) (primes 64).

Definition init : list Z := map (frac_root 2) (primes 8).

(** Big-endian 32-bit words of a block. *)
Fixpoint words (bs : list byte) : list Z :=
  match bs with
  | b0 :: b1 :: b2 :: b3 :: rest =>
      (byte_to_Z b0 * 2 ^ 24 + byte_to_Z b1 * 2 ^ 16 + byte_to_Z b2 * 2 ^ 8 + byte_to_Z b3)
        :: words rest
  | _ => []
  end.

Definition word_bytes (w : Z) : list byte :=
  [ byte_of_Z (Z.shiftr w 24); byte_of_Z (Z.shiftr w 16);
    byte_of_Z (Z.shiftr w 8); byte_of_Z w ].

(** The message schedule: [win] holds the sixteen most recent words, oldest
    first; each step emits the oldest and appends the next one. *)
Fixpoint schedule (n : nat) (win : list Z) : list Z :=
  match n with
  | O => []
  | S n' =>
      match win with
      | [] => []
      | w0 :: tl =>
          let w1 := nth 0 tl 0 in
          let w9 := nth 8 tl 0 in
          let w14 := nth 13 tl 0 in
          let next := add32 (add32 (add32 (ssig1 w14) w9) (ssig0 w1)) w0 in
          w0 :: schedule n' (tl ++ [next])
      end
  end.

Record regs := Regs { ra : Z; rb : Z; rc : Z; rd : Z; re : Z; rf : Z; rg : Z; rh : Z }.

Definition round (r : regs) (kw : Z * Z) : regs :=
  let t1 := add32 (add32 (add32 (add32 (rh r) (bsig1 (re r))) (Ch (re r) (rf r) (rg r)))
                     (fst kw)) (snd kw) in
  let t2 := add32 (bsig0 (ra r)) (Maj (ra r) (rb r) (rc r)) in
  Regs (add32 t1 t2) (ra r) (rb r) (rc r) (add32 (rd r) t1) (re r) (rf r) (rg r).

Definition regs_of (h : list Z) : regs :=
  Regs (nth 0 h 0) (nth 1 h 0) (nth 2 h 0) (nth 3 h 0)
       (nth 4 h 0) (nth 5 h 0) (nth 6 h 0) (nth 7 h 0).

(** One application of the compression function to a 64-byte block. *)
Definition block (h : list Z) (p : list byte) : list Z :=
  let r0 := regs_of h in
  let r := fold_left round (combine _K (schedule 64 (words p))) r0 in
  [ add32 (ra r0) (ra r); add32 (rb r0) (rb r); add32 (rc r0) (rc r); add32 (rd r0) (rd r);
    add32 (re r0) (re r); add32 (rf r0) (rf r); add32 (rg r0) (rg r); add32 (rh r0) (rh r) ].

Fixpoint blocks (fuel : nat) (h : list Z) (p : list byte) : list Z :=
  match fuel with
  | O => h
  | S fuel' =>
      match p with
      | [] => h
      | _ => blocks fuel' (block h (take 64 p)) (drop 64 p)
      end
  end.

(** Padding: 0x80, zeros up to 56 mod 64, then the bit length on 8 bytes. *)
Definition pad (len : Z) : list byte :=
  let zeros := Z.to_nat ((55 - len) mod 64) in
  let bits := len * 8 in
  x80 :: repeat x00 zeros
    ++ word_bytes (Z.shiftr bits 32) ++ word_bytes (Z.land bits 0xFFFFFFFF).

Definition Sum256 (data : list byte) : list byte :=
  let m := data ++ pad (Z.of_nat (length data)) in
  concat (map word_bytes (blocks (length m) init m)).

Record digest := Digest { written : list byte }.

Definition New : digest := Digest [].

Definition Write (d : digest) (p : list byte) : digest := Digest (written d ++ p).

Definition Sum (d : digest) (b : list byte) : list byte := b ++ Sum256 (written d).

End sha256.


(** ** bytes.Compare *)

Module bytes.

(** Lexicographic comparison: [-1], [0] or [1]. *)
Fixpoint Compare (a b : list byte) : Z :=
  match a, b with
  | [], [] => 0
  | [], _ :: _ => -1
  | _ :: _, [] => 1
  | x :: a', y :: b' =>
      if (byte_to_Z x <? byte_to_Z y)%Z then -1
      else if (byte_to_Z y <? byte_to_Z x)%Z then 1
      else Compare a' b'
  end.

End bytes.

(** ** Errors

    The sentinel errors the package compares against or returns, the failures
    of the database and its driver, and the errors a generator or a hash
    function may return. *)

Inductive Err : Type :=
| ErrNoRows                 (* sql.ErrNoRows *)
| ErrTxDone                 (* sql.ErrTxDone *)
| ErrAccountBindExists      (* user.ErrAccountBindExists *)
| ErrAccountRegisterExists  (* member.ErrAccountRegisterExists *)
| ErrUserNotFound           (* member.ErrUserNotFound *)
| ErrHashMethodNotFound
| ErrStorage (code : nat)
| ErrOther (msg : string).

#[global] Instance Err_eq_dec : EqDecision Err.
Proof. solve_decision. Defined.

(** A Go [error]: [None] is [nil]. *)
Abbreviation error := (option Err).

(** ** Constants *)

Definition FlagEmpty : Z := 0.
Definition FlagWithAccount : Z := 1.
Definition FlagWithPassword : Z := 2.
Definition FlagWithToken : Z := 4.
Definition FlagWithUser : Z := 8.

Definition UserStatusNormal : Z := 0.
Definition UserStatusBanned : Z := 1.

Definition DefaultHashMethod : string := "sha256".

(** ** Data models

    The persisted schema is [account(uid, keyword, account, created_time)],
    [password(uid, hash_method, salt, password, updated_time)],
    [token(uid, token, updated_time)] and
    [user(uid, status, created_time, updated_time)].  [AccountModel],
    [PasswordModel] and [UserModel] carry exactly the columns of their table
    and serve as its rows; [TokenModel] declares [UpdatedTime] as a string, so
    the token table has its own row type. *)

Record user_Account := { Keyword : string; Account : string }.

Record AccountModel := {
  AccountModel_UID : string;
  AccountModel_Keyword : string;
  AccountModel_Account : string;
  AccountModel_CreatedTime : Z }.

Record PasswordModel := {
  PasswordModel_UID : string;
  PasswordModel_HashMethod : string;
  PasswordModel_Salt : string;
  PasswordModel_Password : list byte;
  PasswordModel_UpdatedTime : Z }.

Record TokenModel := {
  TokenModel_UID : string;
  TokenModel_Token : string;
  TokenModel_UpdatedTime : string }.

Record TokenRow := {
  token_uid : string;
  token_token : string;
  token_updated_time : Z }.

Record UserModel := {
  UserModel_UID : string;
  UserModel_CreatedTime : Z;
  UserModel_UpdateTIme : Z;
  UserModel_Status : Z }.

(** The zero values [AccountModel{}] and [PasswordModel{}]. *)
Definition AccountModel_zero : AccountModel := Build_AccountModel "" "" "" 0.
Definition PasswordModel_zero : PasswordModel := Build_PasswordModel "" "" "" [] 0.

(** ** The relational store *)

Record Store := {
  accounts : list AccountModel;
  passwords : list PasswordModel;
  tokens : list TokenRow;
  users : list UserModel }.

Definition Store_empty : Store := Build_Store [] [] [] [].

Inductive Table := TAccount | TPassword | TToken | TUser.

(** The statements the package executes.  No table carries a unique
    constraint: an INSERT always appends a row. *)
Inductive Stmt : Type :=
| InsertAccount (uid keyword account : string) (created_time : Z)
| InsertUser (uid : string) (status created_time updated_time : Z)
| InsertPassword (uid hash_method salt : string) (password : list byte) (updated_time : Z)
| InsertToken (uid token : string) (updated_time : Z)
| UpdatePasswordWhereUID (hash_method salt : string) (password : list byte) (updated_time : Z)
                  (where_uid : string)
| UpdateTokenWhereUID (token : string) (updated_time : Z) (where_uid : string)
| UpdateUserWhereUID (status updated_time : Z) (where_uid : string)
| DeleteAccountWhere (where_uid where_keyword where_account : string).

(** [UPDATE ... WHERE uid = ?] on a table: every matching row is rewritten in
    place. *)
Definition update_where {A} (p : A -> bool) (f : A -> A) (rows : list A) : list A :=
  map (fun r => if p r then f r else r) rows.

Definition count_where {A} (p : A -> bool) (rows : list A) : Z :=
  Z.of_nat (length (filter (fun r => p r = true) rows)).

Definition eqs (a b : string) : bool := bool_decide (a = b).

(** A statement applied to a store: the new store and the number of rows
    affected, which for an UPDATE or DELETE is the number of rows its WHERE
    clause matches. *)
Definition exec_stmt (q : Stmt) (st : Store) : Store * Z :=
  match q with
  | InsertAccount uid keyword account created =>
      (Build_Store (accounts st ++ [Build_AccountModel uid keyword account created])
                   (passwords st) (tokens st) (users st), 1)
  | InsertUser uid status created updated =>
      (Build_Store (accounts st) (passwords st) (tokens st)
                   (users st ++ [Build_UserModel uid created updated status]), 1)
  | InsertPassword uid hm salt pw updated =>
      (Build_Store (accounts st) (passwords st ++ [Build_PasswordModel uid hm salt pw updated])
                   (tokens st) (users st), 1)
  | InsertToken uid tok updated =>
      (Build_Store (accounts st) (passwords st) (tokens st ++ [Build_TokenRow uid tok updated])
                   (users st), 1)
  | UpdatePasswordWhereUID hm salt pw updated uid =>
      let p := fun r => eqs (PasswordModel_UID r) uid in
      (Build_Store (accounts st)
         (update_where p (fun r => Build_PasswordModel (PasswordModel_UID r) hm salt pw updated)
            (passwords st))
         (tokens st) (users st),
       count_where p (passwords st))
  | UpdateTokenWhereUID tok updated uid =>
      let p := fun r => eqs (token_uid r) uid in
      (Build_Store (accounts st) (passwords st)
         (update_where p (fun r => Build_TokenRow (token_uid r) tok updated) (tokens st))
         (users st),
       count_where p (tokens st))
  | UpdateUserWhereUID status updated uid =>
      let p := fun r => eqs (UserModel_UID r) uid in
      (Build_Store (accounts st) (passwords st) (tokens st)
         (update_where p
            (fun r => Build_UserModel (UserModel_UID r) (UserModel_CreatedTime r) updated status)
            (users st)),
       count_where p (users st))
  | DeleteAccountWhere uid keyword account =>
      let p := fun r => eqs (AccountModel_UID r) uid && eqs (AccountModel_Keyword r) keyword
                        && eqs (AccountModel_Account r) account in
      (Build_Store (filter (fun r => p r = false) (accounts st))
                   (passwords st) (tokens st) (users st),
       count_where p (accounts st))
  end.

(** ** The database handle

    A call goes either to the database itself ([OnDB]: it sees and changes the
    committed store) or to an open transaction ([OnTx]).  A transaction works
    on a private copy of the store taken at [Begin]; [Commit] publishes the
    copy, [Rollback] drops it.  Every call that can fail consults the fault
    plan [faults] at the index of the call, and every call is recorded in
    [trace]. *)

Inductive Handle := OnDB | OnTx (tx : nat).

Inductive Event : Type :=
| EvBegin (tx : nat)
| EvQuery (h : Handle) (t : Table)
| EvExec (h : Handle) (q : Stmt)
| EvRowsAffected
| EvCommit (tx : nat)
| EvRollback (tx : nat)
| EvFault (code : nat).

Record DBState := {
  committed : Store;
  txs : gmap nat Store;
  faults : nat -> option nat;
  calls : nat;
  trace : list Event }.

(** The clock and the private state of the generator closures. *)
Record World := {
  clock : nat -> Z;     (* successive readings of the wall clock, in nanoseconds *)
  ticks : nat;          (* readings taken so far *)
  seed : nat }.

Record Sys := { db : DBState; world : World }.

(** ** A state monad over [Sys] *)

Definition M (A : Type) : Type := Sys -> A * Sys.

Definition ret {A} (a : A) : M A := fun s => (a, s).

Definition bind {A B} (m : M A) (k : A -> M B) : M B :=
  fun s => let (a, s') := m s in k a s'.

Notation "'let*' x ':=' m 'in' k" := (bind m (fun x => k))
  (at level 10, x pattern, m at level 100, k at level 200, only parsing).

(** [defer f] followed by [body]: [f] runs on every exit path of [body] and
    its result is dropped. *)
Definition defer {A B} (f : M B) (body : M A) : M A :=
  let* r := body in let* _ := f in ret r.

Definition with_db (d : DBState) (s : Sys) : Sys := Build_Sys d (world s).

Definition view (d : DBState) (h : Handle) : option Store :=
  match h with
  | OnDB => Some (committed d)
  | OnTx tx => txs d !! tx
  end.

Definition put_view (d : DBState) (h : Handle) (st : Store) : DBState :=
  match h with
  | OnDB => Build_DBState st (txs d) (faults d) (calls d) (trace d)
  | OnTx tx => Build_DBState (committed d) (<[tx := st]> (txs d)) (faults d) (calls d) (trace d)
  end.

(** One fallible call: the fault plan decides whether it fails. *)
Definition db_call (ev : Event) : M error :=
  fun s =>
    let d := db s in
    match faults d (calls d) with
    | Some c =>
        (Some (ErrStorage c),
         with_db (Build_DBState (committed d) (txs d) (faults d) (S (calls d))
                    (trace d ++ [EvFault c])) s)
    | None =>
        (None,
         with_db (Build_DBState (committed d) (txs d) (faults d) (S (calls d))
                    (trace d ++ [ev])) s)
    end.

Definition Begin : M (nat * error) :=
  fun s =>
    let d := db s in
    let tx := fresh (dom (txs d)) in
    match db_call (EvBegin tx) s with
    | (Some e, s') => ((O, Some e), s')
    | (None, s') =>
        let d' := db s' in
        ((tx, None),
         with_db (Build_DBState (committed d') (<[tx := committed d']> (txs d'))
                    (faults d') (calls d') (trace d')) s')
    end.

Definition Exec (h : Handle) (q : Stmt) : M (Z * error) :=
  let* err := db_call (EvExec h q) in
  match err with
  | Some e => ret (0, Some e)
  | None =>
      fun s =>
        match view (db s) h with
        | None => ((0, Some ErrTxDone), s)
        | Some st =>
            let (st', n) := exec_stmt q st in
            ((n, None), with_db (put_view (db s) h st') s)
        end
  end.

(** [sql.Result.RowsAffected]. *)
Definition RowsAffected (r : Z) : M (Z * error) :=
  let* err := db_call EvRowsAffected in
  match err with
  | Some e => ret (0, Some e)
  | None => ret (r, None)
  end.

Definition Commit (tx : nat) : M error :=
  let* err := db_call (EvCommit tx) in
  match err with
  | Some e => ret (Some e)
  | None =>
      fun s =>
        let d := db s in
        match txs d !! tx with
        | None => (Some ErrTxDone, s)
        | Some st =>
            (None, with_db (Build_DBState st (delete tx (txs d)) (faults d) (calls d) (trace d)) s)
        end
  end.

Definition Rollback (tx : nat) : M error :=
  fun s =>
    let d := db s in
    let d' := Build_DBState (committed d) (delete tx (txs d)) (faults d) (calls d)
                (trace d ++ [EvRollback tx]) in
    (match txs d !! tx with None => Some ErrTxDone | Some _ => None end, with_db d' s).

(** A SELECT: the rows of the table seen through the handle that satisfy the
    condition, in table order. *)
Definition Query {A} (h : Handle) (t : Table) (rows : Store -> list A) (cond : A -> bool)
  : M (list A * error) :=
  let* err := db_call (EvQuery h t) in
  match err with
  | Some e => ret ([], Some e)
  | None =>
      fun s =>
        match view (db s) h with
        | None => (([], Some ErrTxDone), s)
        | Some st => ((filter (fun r => cond r = true) (rows st), None), s)
        end
  end.

(** [QueryRow] followed by [Scan]: the first row, or [sql.ErrNoRows]; the
    destination keeps its zero value when an error is returned. *)
Definition QueryRow {A} (h : Handle) (t : Table) (rows : Store -> list A) (cond : A -> bool)
    (zero : A) : M (A * error) :=
  let* (rs, err) := Query h t rows cond in
  match err with
  | Some e => ret (zero, Some e)
  | None =>
      match rs with
      | [] => ret (zero, Some ErrNoRows)
      | r :: _ => ret (r, None)
      end
  end.

(** [time.Now()]: the next reading of the clock. *)
Definition time_Now : M Z :=
  fun s =>
    let w := world s in
    (clock w (ticks w), Build_Sys (db s) (Build_World (clock w) (S (ticks w)) (seed w))).

(** [time.Now().Unix()]: the reading in seconds. *)
Definition time_Now_Unix : M Z := let* n := time_Now in ret (n / 1000000000).

(** ** Generators and the hash registry *)

(** A string generator [func() (string, error)]: it may read the clock and
    advance its private state. *)
Definition Generater : Type := World -> (string * error) * World.

Definition generate (g : Generater) : M (string * error) :=
  fun s => let (r, w) := g (world s) in (r, Build_Sys (db s) w).

(** [Timestamp]: the clock in nanoseconds, in decimal. *)
Definition Timestamp : Generater :=
  fun w =>
    ((pretty (clock w (ticks w)), None), Build_World (clock w) (S (ticks w)) (seed w)).

(** [crypto/rand]: the system's source of random bytes.  A reading takes the
    next bytes of the source, from the position the world's [seed] holds, or
    fails and leaves the buffer as it was made. *)
Record Reader := {
  entropy : nat -> byte;
  read_error : nat -> error }.

Definition rand_Read (rd : Reader) (n : nat) : World -> (list byte * error) * World :=
  fun w =>
    match read_error rd (seed w) with
    | Some e => ((repeat x00 n, Some e), w)
    | None =>
        ((map (entropy rd) (seq (seed w) n), None),
         Build_World (clock w) (ticks w) (seed w + n))
    end.

(** The initial value of the package variable [RandomBytesLength]. *)
Definition RandomBytesLength : nat := 32.

(** [RandomBytes], for the value [len] that [RandomBytesLength] holds when
    it is called. *)
Definition RandomBytes (rd : Reader) (len : nat) : Generater :=
  fun w =>
    let '((buf, err), w') := rand_Read rd len w in
    match err with
    | Some e => (("", Some e), w')
    | None => ((hex.EncodeToString buf, None), w')
    end.

(** [UUID]: the string of [uuid.NewV1()], which the uuid library computes
    from the clock and the host; it never returns an error. *)
Definition UUID (uuid_NewV1 : World -> string * World) : Generater :=
  fun w => let (id, w') := uuid_NewV1 w in ((id, None), w').

(** [HashFunc]: [func(key, salt, password string) ([]byte, error)]. *)
Abbreviation HashFunc := (string -> string -> string -> list byte * error).

(** The function registered under ["sha256"]. *)
Definition sha256_HashFunc : HashFunc :=
  fun key salt password =>
    let val := bytes_of_string (key +:+ salt +:+ password) in
    let s256 := sha256.New in
    let s256 := sha256.Write s256 val in
    let val := sha256.Sum s256 [] in
    let s256 := sha256.Write s256 val in
    (bytes_of_string (hex.EncodeToString (sha256.Sum s256 [])), None).

(** The initial value of the process-wide registry [HashFuncMap]. *)
Definition HashFuncMap : gmap string HashFunc := {[ "sha256" := sha256_HashFunc ]}.

(** ** The facade *)

Record User := {
  Flag : Z;
  UIDGenerater : Generater;
  TokenGenerater : Generater;
  SaltGenerater : Generater;
  HashMethod : string;
  PasswordKey : string }.

Definition HasFlag (u : User) (flag : Z) : bool := negb (Z.land (Flag u) flag =? 0)%Z.

(** [New]: the facade with the default generators, hash method and an empty
    static key.  The database and the table names are those of the store. *)
Definition New (uuid_NewV1 : World -> string * World) (rd : Reader) (flag : Z) : User :=
  Build_User flag (UUID uuid_NewV1) Timestamp (RandomBytes rd RandomBytesLength)
    DefaultHashMethod "".

(** ** Conditions of the queries *)

Definition account_is (keyword account : string) (r : AccountModel) : bool :=
  eqs (AccountModel_Keyword r) keyword && eqs (AccountModel_Account r) account.

Definition uid_in {A} (uid_of : A -> string) (uids : list string) (r : A) : bool :=
  bool_decide (uid_of r ∈ uids).

(** ** AccountDataMapper *)

Module AccountDataMapper.

Definition Unbind (uid : string) (account : user_Account) : M error :=
  let* (tx, err) := Begin in
  match err with
  | Some e => ret (Some e)
  | None =>
      defer (Rollback tx)
        (let* (_, err) :=
           Exec (OnTx tx) (DeleteAccountWhere uid (Keyword account) (Account account)) in
         match err with
         | Some e => ret (Some e)
         | None => Commit tx
         end)
  end.

Definition Bind (uid : string) (account : user_Account) : M error :=
  let* (tx, err) := Begin in
  match err with
  | Some e => ret (Some e)
  | None =>
      defer (Rollback tx)
        (let* (_, err) :=
           QueryRow OnDB TAccount accounts (account_is (Keyword account) (Account account))
             AccountModel_zero in
         match err with
         | None => ret (Some ErrAccountBindExists)
         | Some e =>
             if bool_decide (e ≠ ErrNoRows) then ret (Some e)
             else
               let* CreatedTime := time_Now_Unix in
               let* (_, err) :=
                 Exec (OnTx tx)
                   (InsertAccount uid (Keyword account) (Account account) CreatedTime) in
               match err with
               | Some e => ret (Some e)
               | None => Commit tx
               end
         end)
  end.

Definition FindOrInsert (u : User) (UIDGenerater : Generater) (account : user_Account)
  : M (string * error) :=
  let* (tx, err) := Begin in
  match err with
  | Some e => ret ("", Some e)
  | None =>
      defer (Rollback tx)
        (let* (result, err) :=
           QueryRow OnDB TAccount accounts (account_is (Keyword account) (Account account))
             AccountModel_zero in
         match err with
         | None => ret (AccountModel_UID result, None)
         | Some e =>
             if bool_decide (e ≠ ErrNoRows) then ret ("", Some e)
             else
               (* the generator's error is assigned and overwritten unread *)
               let* (uid, _) := generate UIDGenerater in
               let* CreatedTime := time_Now_Unix in
               let* (_, err) :=
                 Exec (OnTx tx)
                   (InsertAccount uid (Keyword account) (Account account) CreatedTime) in
               match err with
               | Some e => ret ("", Some e)
               | None =>
                   if HasFlag u FlagWithUser then
                     let* (_, err) :=
                       Exec (OnTx tx)
                         (InsertUser uid UserStatusNormal CreatedTime CreatedTime) in
                     match err with
                     | Some e => ret ("", Some e)
                     | None => let* err := Commit tx in ret (uid, err)
                     end
                   else
                     let* err := Commit tx in ret (uid, err)
               end
         end)
  end.

Definition Insert (u : User) (uid keyword account : string) : M error :=
  let* (tx, err) := Begin in
  match err with
  | Some e => ret (Some e)
  | None =>
      defer (Rollback tx)
        (let* (_, err) :=
           QueryRow OnDB TAccount accounts (account_is keyword account) AccountModel_zero in
         match err with
         | None => ret (Some ErrAccountRegisterExists)
         | Some e =>
             if bool_decide (e ≠ ErrNoRows) then ret (Some e)
             else
               let* CreatedTime := time_Now_Unix in
               let* (_, err) := Exec (OnTx tx) (InsertAccount uid keyword account CreatedTime) in
               match err with
               | Some e => ret (Some e)
               | None =>
                   if HasFlag u FlagWithUser then
                     let* (_, err) :=
                       Exec (OnTx tx)
                         (InsertUser uid UserStatusNormal CreatedTime CreatedTime) in
                     match err with
                     | Some e => ret (Some e)
                     | None => Commit tx
                     end
                   else Commit tx
               end
         end)
  end.

Definition Find (keyword account : string) : M (AccountModel * error) :=
  if eqs keyword "" || eqs account "" then ret (AccountModel_zero, Some ErrNoRows)
  else QueryRow OnDB TAccount accounts (account_is keyword account) AccountModel_zero.

Definition AccountToUID (account : user_Account) : M (string * error) :=
  let* (model, err) := Find (Keyword account) (Account account) in
  if bool_decide (err = Some ErrNoRows) then ret ("", None)
  else ret (AccountModel_UID model, err).

Definition Register (u : User) (account : user_Account) : M (string * error) :=
  let* (uid, err) := generate (UIDGenerater u) in
  match err with
  | Some e => ret (uid, Some e)
  | None =>
      let* err := Insert u uid (Keyword account) (Account account) in
      ret (uid, err)
  end.

Definition AccountToUIDOrRegister (u : User) (account : user_Account) : M (string * error) :=
  FindOrInsert u (UIDGenerater u) account.

Definition BindAccount (uid : string) (account : user_Account) : M error := Bind uid account.

Definition UnbindAccount (uid : string) (account : user_Account) : M error :=
  Unbind uid account.

(** The query selects uid, keyword and account: [CreatedTime] keeps its zero
    value in the models returned. *)
Definition FindAllByUID (uids : list string) : M (list AccountModel * error) :=
  match uids with
  | [] => ret ([], None)
  | _ =>
      let* (rows, err) := Query OnDB TAccount accounts (uid_in AccountModel_UID uids) in
      match err with
      | Some e => ret ([], Some e)
      | None =>
          ret (map (fun r => Build_AccountModel (AccountModel_UID r) (AccountModel_Keyword r)
                               (AccountModel_Account r) 0) rows, None)
      end
  end.

(** [member.Accounts] is [map[string]user.Accounts], a list of accounts per
    uid; each model is appended to the list of its uid. *)
Definition Accounts (uid : list string) : M (gmap string (list user_Account) * error) :=
  let* (models, err) := FindAllByUID uid in
  match err with
  | Some e => ret (∅, Some e)
  | None =>
      ret (fold_left
             (fun (result : gmap string (list user_Account)) (v : AccountModel) =>
                let result :=
                  match result !! AccountModel_UID v with
                  | None => <[AccountModel_UID v := []]> result
                  | Some _ => result
                  end in
                let account :=
                  Build_user_Account (AccountModel_Keyword v) (AccountModel_Account v) in
                <[AccountModel_UID v :=
                    default [] (result !! AccountModel_UID v) ++ [account]]> result)
             models ∅, None)
  end.

End AccountDataMapper.

(** ** PasswordDataMapper *)

Module PasswordDataMapper.

Definition Find (uid : string) : M (PasswordModel * error) :=
  if eqs uid "" then ret (PasswordModel_zero, Some ErrNoRows)
  else
    let* (row, err) :=
      QueryRow OnDB TPassword passwords (fun r => eqs (PasswordModel_UID r) uid)
        PasswordModel_zero in
    (* [result.UID = uid] is set before the scan, which fills the other four fields *)
    ret (Build_PasswordModel uid (PasswordModel_HashMethod row) (PasswordModel_Salt row)
           (PasswordModel_Password row) (PasswordModel_UpdatedTime row), err).

Definition InsertOrUpdate (model : PasswordModel) : M error :=
  let* (tx, err) := Begin in
  match err with
  | Some e => ret (Some e)
  | None =>
      defer (Rollback tx)
        (let* (r, err) :=
           Exec (OnTx tx)
             (UpdatePasswordWhereUID (PasswordModel_HashMethod model) (PasswordModel_Salt model)
                (PasswordModel_Password model) (PasswordModel_UpdatedTime model)
                (PasswordModel_UID model)) in
         match err with
         | Some e => ret (Some e)
         | None =>
             let* (affected, err) := RowsAffected r in
             match err with
             | Some e => ret (Some e)
             | None =>
                 if negb (affected =? 0)%Z then Commit tx
                 else
                   let* (_, err) :=
                     Exec (OnTx tx)
                       (InsertPassword (PasswordModel_UID model) (PasswordModel_HashMethod model)
                          (PasswordModel_Salt model) (PasswordModel_Password model)
                          (PasswordModel_UpdatedTime model)) in
                   match err with
                   | Some e => ret (Some e)
                   | None => Commit tx
                   end
             end
         end)
  end.

Section Registry.

(** The registry as it stands when the call is made. *)
Variable registry : gmap string HashFunc.

Definition VerifyPassword (u : User) (uid password : string) : M (bool * error) :=
  let* (model, err) := Find uid in
  if bool_decide (err = Some ErrNoRows) then ret (false, Some ErrUserNotFound)
  else
    match err with
    | Some e => ret (false, Some e)
    | None =>
        match registry !! PasswordModel_HashMethod model with
        | None => ret (false, Some ErrHashMethodNotFound)
        | Some hash =>
            let '(hashed, err) := hash (PasswordKey u) (PasswordModel_Salt model) password in
            match err with
            | Some e => ret (false, Some e)
            | None => ret ((bytes.Compare hashed (PasswordModel_Password model) =? 0)%Z, None)
            end
        end
    end.

Definition UpdatePassword (u : User) (uid password : string) : M error :=
  let* (salt, err) := generate (SaltGenerater u) in
  match err with
  | Some e => ret (Some e)
  | None =>
      match registry !! HashMethod u with
      | None => ret (Some ErrHashMethodNotFound)
      | Some hash =>
          let '(hashed, err) := hash (PasswordKey u) salt password in
          match err with
          | Some e => ret (Some e)
          | None =>
              let* now := time_Now_Unix in
              InsertOrUpdate
                (Build_PasswordModel uid (HashMethod u) salt hashed now)
          end
      end
  end.

End Registry.

End PasswordDataMapper.

(** ** TokenDataMapper *)

Module TokenDataMapper.

Definition InsertOrUpdate (uid token : string) : M error :=
  let* (tx, err) := Begin in
  match err with
  | Some e => ret (Some e)
  | None =>
      defer (Rollback tx)
        (let* CreatedTime := time_Now_Unix in
         let* (r, err) := Exec (OnTx tx) (UpdateTokenWhereUID token CreatedTime uid) in
         match err with
         | Some e => ret (Some e)
         | None =>
             let* (affected, err) := RowsAffected r in
             match err with
             | Some e => ret (Some e)
             | None =>
                 if negb (affected =? 0)%Z then Commit tx
                 else
                   let* (_, err) := Exec (OnTx tx) (InsertToken uid token CreatedTime) in
                   match err with
                   | Some e => ret (Some e)
                   | None => Commit tx
                   end
             end
         end)
  end.

Definition FindAllByUID (uids : list string) : M (list TokenModel * error) :=
  match uids with
  | [] => ret ([], None)
  | _ =>
      let* (rows, err) := Query OnDB TToken tokens (uid_in token_uid uids) in
      match err with
      | Some e => ret ([], Some e)
      | None => ret (map (fun r => Build_TokenModel (token_uid r) (token_token r) "") rows, None)
      end
  end.

(** [member.Tokens] is [map[string]string]; later rows overwrite earlier ones. *)
Definition Tokens (uids : list string) : M (gmap string string * error) :=
  let* (models, err) := FindAllByUID uids in
  match err with
  | Some e => ret (∅, Some e)
  | None =>
      ret (fold_left
             (fun (result : gmap string string) (v : TokenModel) =>
                <[TokenModel_UID v := TokenModel_Token v]> result)
             models ∅, None)
  end.

Definition Revoke (u : User) (uid : string) : M (string * error) :=
  let* (token, err) := generate (TokenGenerater u) in
  match err with
  | Some e => ret ("", Some e)
  | None =>
      let* err := InsertOrUpdate uid token in
      ret (token, err)
  end.

End TokenDataMapper.

(** ** UserDataMapper *)

Module UserDataMapper.

(** The query selects uid and status: the two timestamps keep their zero
    value in the models returned. *)
Definition FindAllByUID (uids : list string) : M (list UserModel * error) :=
  match uids with
  | [] => ret ([], None)
  | _ =>
      let* (rows, err) := Query OnDB TUser users (uid_in UserModel_UID uids) in
      match err with
      | Some e => ret ([], Some e)
      | None =>
          ret (map (fun r => Build_UserModel (UserModel_UID r) 0 0 (UserModel_Status r)) rows,
               None)
      end
  end.

Definition InsertOrUpdate (uid : string) (status : Z) : M error :=
  let* (tx, err) := Begin in
  match err with
  | Some e => ret (Some e)
  | None =>
      defer (Rollback tx)
        (let* CreatedTime := time_Now_Unix in
         let* (r, err) := Exec (OnTx tx) (UpdateUserWhereUID status CreatedTime uid) in
         match err with
         | Some e => ret (Some e)
         | None =>
             let* (affected, err) := RowsAffected r in
             match err with
             | Some e => ret (Some e)
             | None =>
                 if negb (affected =? 0)%Z then Commit tx
                 else
                   let* (_, err) :=
                     Exec (OnTx tx) (InsertUser uid status CreatedTime CreatedTime) in
                   match err with
                   | Some e => ret (Some e)
                   | None => Commit tx
                   end
             end
         end)
  end.

(** [member.BannedMap] is [map[string]bool]; later rows overwrite earlier
    ones. *)
Definition Banned (uid : list string) : M (gmap string bool * error) :=
  let* (models, err) := FindAllByUID uid in
  match err with
  | Some e => ret (∅, Some e)
  | None =>
      ret (fold_left
             (fun (result : gmap string bool) (v : UserModel) =>
                <[UserModel_UID v := (UserModel_Status v =? UserStatusBanned)%Z]> result)
             models ∅, None)
  end.

Definition Ban (uid : string) (banned : bool) : M error :=
  let status := if banned then UserStatusBanned else UserStatusNormal in
  InsertOrUpdate uid status.

End UserDataMapper.

(** ** Vocabulary of the properties *)

(** No call of the database fails. *)
Definition no_faults (s : Sys) : Prop := ∀ k, faults (db s) k = None.

(** A run from [s] to [s'] that returned [err] is atomic on failure: a fault
    at any step is the error returned, a returned error leaves the committed
    store as it was, and no transaction is left open. *)
Definition atomic (err : error) (s s' : Sys) : Prop :=
  ∃ evs, trace (db s') = trace (db s) ++ evs
    ∧ (∀ c, EvFault c ∈ evs → err = Some (ErrStorage c))
    ∧ (err ≠ None → committed (db s') = committed (db s))
    ∧ txs (db s') = txs (db s).

(** The reading [time.Now().Unix()] returns in world [w], and the world after
    the reading. *)
Definition now_of (w : World) : Z := clock w (ticks w) / 1000000000.
Definition now_Unix (s : Sys) : Z := now_of (world s).
Definition tick (w : World) : World := Build_World (clock w) (S (ticks w)) (seed w).

(** The state a run leaves that started in [s], made [ncalls] fallible calls
    recorded as [evs], committed [st] and left no transaction of its own open. *)
Definition after (s : Sys) (st : Store) (ncalls : nat) (evs : list Event) (w : World) : Sys :=
  Build_Sys
    (Build_DBState st (txs (db s)) (faults (db s)) (ncalls + calls (db s)) (trace (db s) ++ evs))
    w.

(** The store a statement leaves. *)
Definition apply_stmt (st : Store) (q : Stmt) : Store := fst (exec_stmt q st).

(** The outcome of the upsert discipline on a store: the UPDATE, and the
    INSERT only when the UPDATE affected no row. *)
Definition upserted (upd ins : Stmt) (st : Store) : Store :=
  let (st1, affected) := exec_stmt upd st in
  if negb (affected =? 0)%Z then st1 else fst (exec_stmt ins st1).

Inductive Upsert : Type :=
| UpsertPassword (model : PasswordModel)
| UpsertToken (uid token : string)
| UpsertUser (uid : string) (status : Z).

Definition run_upsert (call : Upsert) : M error :=
  match call with
  | UpsertPassword model => PasswordDataMapper.InsertOrUpdate model
  | UpsertToken uid token => TokenDataMapper.InsertOrUpdate uid token
  | UpsertUser uid status => UserDataMapper.InsertOrUpdate uid status
  end.

Definition upsert_update (call : Upsert) (now : Z) : Stmt :=
  match call with
  | UpsertPassword model =>
      UpdatePasswordWhereUID (PasswordModel_HashMethod model) (PasswordModel_Salt model)
        (PasswordModel_Password model) (PasswordModel_UpdatedTime model)
        (PasswordModel_UID model)
  | UpsertToken uid token => UpdateTokenWhereUID token now uid
  | UpsertUser uid status => UpdateUserWhereUID status now uid
  end.

Definition upsert_insert (call : Upsert) (now : Z) : Stmt :=
  match call with
  | UpsertPassword model =>
      InsertPassword (PasswordModel_UID model) (PasswordModel_HashMethod model)
        (PasswordModel_Salt model) (PasswordModel_Password model)
        (PasswordModel_UpdatedTime model)
  | UpsertToken uid token => InsertToken uid token now
  | UpsertUser uid status => InsertUser uid status now now
  end.

(** The calls an upsert makes when none fails: the UPDATE on its transaction
    first, and the INSERT only after [RowsAffected] reported zero rows. *)
Definition upsert_events (call : Upsert) (s : Sys) : list Event :=
  let tx := fresh (dom (txs (db s))) in
  let upd := upsert_update call (now_Unix s) in
  let ins := upsert_insert call (now_Unix s) in
  [EvBegin tx; EvExec (OnTx tx) upd; EvRowsAffected]
    ++ (if (snd (exec_stmt upd (committed (db s))) =? 0)%Z then [EvExec (OnTx tx) ins] else [])
    ++ [EvCommit tx; EvRollback tx].

(** A sequence of upsert calls, each starting where the previous one ended. *)
Fixpoint run_upserts (calls : list Upsert) (s : Sys) : Sys :=
  match calls with
  | [] => s
  | call :: rest => run_upserts rest (snd (run_upsert call s))
  end.

Definition password_rows (uid : string) (st : Store) : Z :=
  count_where (fun r => eqs (PasswordModel_UID r) uid) (passwords st).
Definition token_rows (uid : string) (st : Store) : Z :=
  count_where (fun r => eqs (token_uid r) uid) (tokens st).
Definition user_rows (uid : string) (st : Store) : Z :=
  count_where (fun r => eqs (UserModel_UID r) uid) (users st).
Definition account_rows (keyword account : string) (st : Store) : Z :=
  count_where (account_is keyword account) (accounts st).

Definition at_most_one_row (uid : string) (st : Store) : Prop :=
  (password_rows uid st <= 1 ∧ token_rows uid st <= 1 ∧ user_rows uid st <= 1)%Z.

(** The events a run added to the trace. *)
Definition new_events (s s' : Sys) : list Event := drop (length (trace (db s))) (trace (db s')).

(** The event is a call issued on transaction [tx]. *)
Definition on_tx (tx : nat) (ev : Event) : bool :=
  match ev with
  | EvQuery (OnTx tx') _ | EvExec (OnTx tx') _ => bool_decide (tx' = tx)
  | _ => false
  end.

(** The existence check of [Bind] and [FindOrInsert]: a SELECT on the account
    table. *)
Definition is_account_query (ev : Event) : bool :=
  match ev with
  | EvQuery _ TAccount => true
  | _ => false
  end.


(** The account a row of the account table stands for. *)
Definition account_of (r : AccountModel) : user_Account :=
  Build_user_Account (AccountModel_Keyword r) (AccountModel_Account r).

(** The uid an upsert call is for. *)
Definition upsert_uid (call : Upsert) : string :=
  match call with
  | UpsertPassword model => PasswordModel_UID model
  | UpsertToken uid _ => uid
  | UpsertUser uid _ => uid
  end.

(** A run from [s] to [s'] that only read: the committed store, the open
    transactions and the world are as before, and at most one call reached
    the database. *)
Definition read_only (s s' : Sys) : Prop :=
  committed (db s') = committed (db s)
  ∧ txs (db s') = txs (db s)
  ∧ world s' = world s
  ∧ (calls (db s') <= S (calls (db s)))%nat.

(** A lower-case hexadecimal digit. *)
Definition is_hex_digit (c : ascii) : bool :=
  existsb (Ascii.eqb c) (list_ascii_of_string hex.hextable).

(** ** Sample values *)

Definition constant_generater (t : string) : Generater := fun w => ((t, None), w).

(** A generator that fails, returning [t] beside its error. *)
Definition failing_generater (t : string) (e : Err) : Generater := fun w => ((t, Some e), w).

Definition example_world : World :=
  Build_World (fun n => 1700000000000000000 + Z.of_nat n) 0 0.

(** An empty store behind a database that never fails. *)
Definition example_sys : Sys :=
  Build_Sys (Build_DBState Store_empty ∅ (fun _ => None) 0 []) example_world.

Definition example_user : User :=
  Build_User FlagWithUser (constant_generater "uid-1") Timestamp (constant_generater "salt")
    DefaultHashMethod "".

Definition example_account : user_Account := Build_user_Account "email" "a@example.com".

(** A facade whose token generator always returns the same token. *)
Definition example_user_fixed_token : User :=
  Build_User FlagWithToken (constant_generater "uid-1") (constant_generater "token")
    (constant_generater "salt") DefaultHashMethod "".

(** A hash function in the manner of crypt(3), which reads only the first
    eight bytes of the password, registered under "crypt8" beside the default
    entry, and a facade that uses it. *)
Definition crypt8_HashFunc : HashFunc :=
  fun key salt password => sha256_HashFunc key salt (String.substring 0 8 password).

Definition example_registry : gmap string HashFunc :=
  <["crypt8" := crypt8_HashFunc]> HashFuncMap.

Definition example_user_crypt8 : User :=
  Build_User FlagWithPassword (constant_generater "uid-1") Timestamp (constant_generater "salt")
    "crypt8" "".


(** A source of random bytes that never fails, and a uuid source. *)
Definition example_reader : Reader :=
  Build_Reader (λ n, byte_of_Z (Z.of_nat (7 * n + 3))) (λ _, None).

Definition example_uuid : World → string * World :=
  λ w, ("uuid-" +:+ pretty (seed w), w).

Definition example_phone : user_Account := Build_user_Account "phone" "+100".

(** Three bindings: two accounts of "uid-1" and one of "uid-2". *)
Definition example_accounts_sys : Sys :=
  snd (AccountDataMapper.Bind "uid-2" (Build_user_Account "email" "b@example.com")
         (snd (AccountDataMapper.Bind "uid-1" example_phone
                 (snd (AccountDataMapper.Bind "uid-1" example_account example_sys))))).

(** Tokens of two users, the first one replaced once; status rows of three
    users, the last with a status that is neither Normal nor Banned. *)
Definition example_upserts_sys : Sys :=
  run_upserts
    [ UpsertToken "uid-1" "t1"; UpsertToken "uid-2" "t2"; UpsertToken "uid-1" "t3";
      UpsertUser "uid-1" UserStatusBanned; UpsertUser "uid-2" UserStatusNormal;
      UpsertUser "uid-3" 2 ]
    example_sys.

(** A database whose second call fails, and one whose every call fails. *)
Definition example_failing_sys : Sys :=
  Build_Sys
    (Build_DBState Store_empty ∅ (λ k, if (k =? 1)%nat then Some 7%nat else None) 0 [])
    example_world.

Definition example_unreachable_sys : Sys :=
  Build_Sys (Build_DBState Store_empty ∅ (λ _, Some 7%nat) 0 []) example_world.

(** ** Tactics

    Symbolic runs of the operations: unfold the calls of the database, split
    on the fault plan, simplify the map of open transactions. *)

Ltac unfold_db :=
  unfold defer, Begin, QueryRow, Query, Exec, RowsAffected, Commit, Rollback, db_call,
    time_Now_Unix, time_Now, generate, ret, with_db, bind, view, put_view; simpl.

(** Lookups and updates of the open transactions; the rewrite base [tx]
    holds the facts about the fresh transaction. *)
Create Rewrite HintDb tx.

Ltac gmap_simpl :=
  repeat first
    [ rewrite lookup_insert_eq
    | rewrite insert_insert_eq
    | rewrite delete_insert_eq
    | progress autorewrite with tx ]; simpl.

(** Case split on the fault plan at the next call. *)
Ltac fault_case :=
  match goal with
  | |- context [match ?f ?k with Some _ => _ | None => _ end] =>
      is_var f; let E := fresh "E" in destruct (f k) eqn:E; simpl
  end.

Ltac in_events :=
  let c := fresh "c" in
  let H := fresh "H" in
  intros c H;
  repeat (apply elem_of_cons in H as [H|H];
          [try discriminate H; try (injection H as ->; reflexivity) |]);
  try (apply elem_of_nil in H; contradiction).

Ltac close_atomic :=
  unfold atomic; simpl; rewrite <- ?app_assoc; simpl;
  eexists; split; [reflexivity|];
  split; [in_events|];
  split; [first [reflexivity | intros ?; congruence ]| gmap_simpl; try reflexivity].

Ltac atomic_steps :=
  repeat first
    [ close_atomic
    | fault_case; gmap_simpl
    | match goal with
      | |- context [filter ?P ?l] => destruct (filter P l) eqn:?; simpl
      | |- context [if HasFlag ?u ?fl then _ else _] => destruct (HasFlag u fl); simpl
      | |- context [if negb ?b then _ else _] => destruct b eqn:?; simpl
      | |- context [let (_, _) := ?x in _] =>
          match type of x with
          | (_ * World)%type => destruct x as [[? ?] ?] eqn:?; simpl
          end
      end ].

Ltac no_fault_run Hnf :=
  unfold_db; unfold after, tick, now_of, apply_stmt; simpl;
  repeat first
    [ rewrite !Hnf; simpl
    | progress gmap_simpl ];
  rewrite <- ?app_assoc; simpl.

(** A lookup, run on every fault plan and every outcome of its query. *)
Ltac read_only_steps :=
  unfold read_only; unfold_db;
  repeat first
    [ fault_case
    | match goal with
      | |- context [filter ?P ?l] => destruct (filter P l) eqn:?; simpl
      | |- context [if ?b then _ else _] => destruct b eqn:?; simpl
      | |- context [match ?r !! ?k with Some _ => _ | None => _ end] =>
          destruct (r !! k) eqn:?; simpl
      | |- context [let '(_, _) := ?x in _] => destruct x as [? [?|]] eqn:?; simpl
      end ];
  repeat split; try reflexivity; lia.

(** * Properties *)

(** ** SHA-256: known answers *)

Example init_values :
  sha256.init
  = [ 0x6a09e667; 0xbb67ae85; 0x3c6ef372; 0xa54ff53a;
      0x510e527f; 0x9b05688c; 0x1f83d9ab; 0x5be0cd19 ].
Proof. vm_compute. reflexivity. Qed.

Example K_values :
  length sha256._K = 64%nat
  ∧ take 4 sha256._K = [ 0x428a2f98; 0x71374491; 0xb5c0fbcf; 0xe9b5dba5 ]
  ∧ drop 60 sha256._K = [ 0x90befffa; 0xa4506ceb; 0xbef9a3f7; 0xc67178f2 ].
Proof. vm_compute. repeat split. Qed.

Example Sum256_abc :
  hex.EncodeToString (sha256.Sum256 (bytes_of_string "abc"))
  = "ba7816bf8f01cfea414140de5dae2223b00361a396177a9cb410ff61f20015ad".
Proof. vm_compute. reflexivity. Qed.

Example Sum256_empty :
  hex.EncodeToString (sha256.Sum256 [])
  = "e3b0c44298fc1c149afbf4c8996fb92427ae41e4649b934ca495991b7852b855".
Proof. vm_compute. reflexivity. Qed.

Example Sum256_two_blocks :
  hex.EncodeToString (sha256.Sum256 (bytes_of_string
    "abcdbcdecdefdefgefghfghighijhijkijkljklmklmnlmnomnopnopq"))
  = "248d6a61d20638b8e5c026930c3e6039a33ce45964ff2167f6ecedd419db06c1".
Proof. vm_compute. reflexivity. Qed.

(** ** The running hash *)

Lemma Sum_keeps_state (d : sha256.digest) (p : list byte) :
  sha256.Sum (sha256.Write d p) [] = sha256.Sum256 (sha256.written d ++ p).
Proof. unfold sha256.Sum, sha256.Write. simpl. reflexivity. Qed.

Lemma Write_Write (d : sha256.digest) (p q : list byte) :
  sha256.Write (sha256.Write d p) q = sha256.Write d (p ++ q).
Proof. unfold sha256.Write. simpl. f_equal. symmetry. apply app_assoc. Qed.

(** C1 (as amended): the function registered under "sha256" hex-encodes the
    SHA-256 digest of the message [key+salt+password] followed by its own
    digest: the second [Write] adds the inner digest to the input already
    absorbed, it does not start a new hash. *)
Theorem sha256_HashFunc_digest_of_message_and_digest (key salt password : string) :
  let m := bytes_of_string (key +:+ salt +:+ password) in
  HashFuncMap !! "sha256" = Some sha256_HashFunc
  ∧ sha256_HashFunc key salt password
    = (bytes_of_string (hex.EncodeToString (sha256.Sum256 (m ++ sha256.Sum256 m))), None).
Proof.
  intros m. split.
  - unfold HashFuncMap. apply lookup_singleton_eq.
  - unfold sha256_HashFunc. fold m.
    rewrite Write_Write, Sum_keeps_state, Sum_keeps_state.
    simpl. reflexivity.
Qed.

(** C1 (counterexample): for key "key", salt "salt" and password "password"
    the registered function does not return hex(SHA256(SHA256(key+salt+password))). *)
Lemma sha256_HashFunc_not_double_round :
  fst (sha256_HashFunc "key" "salt" "password")
  ≠ bytes_of_string (hex.EncodeToString
      (sha256.Sum256 (sha256.Sum256 (bytes_of_string ("key" +:+ "salt" +:+ "password"))))).
Proof. vm_compute. intros H. discriminate H. Qed.

(** ** Transactions *)

Lemma fresh_tx_None (t : gmap nat Store) : t !! fresh (dom t) = None.
Proof. apply not_elem_of_dom, is_fresh. Qed.

Lemma delete_fresh_tx (t : gmap nat Store) : delete (fresh (dom t)) t = t.
Proof. apply delete_id, fresh_tx_None. Qed.

#[global] Hint Rewrite delete_fresh_tx : tx.

Lemma Bind_atomic (uid : string) (account : user_Account) (s : Sys) :
  let (r, s') := AccountDataMapper.Bind uid account s in atomic r s s'.
Proof. destruct s as [[c t f n tr] w]. unfold AccountDataMapper.Bind. unfold_db. atomic_steps. Qed.


Lemma FindOrInsert_atomic (u : User) (g : Generater) (account : user_Account) (s : Sys) :
  let (r, s') := AccountDataMapper.FindOrInsert u g account s in atomic (snd r) s s'.
Proof.
  destruct s as [[c t f n tr] w]. unfold AccountDataMapper.FindOrInsert. unfold_db.
  atomic_steps.
Qed.

Lemma PasswordDataMapper_InsertOrUpdate_atomic (model : PasswordModel) (s : Sys) :
  let (r, s') := PasswordDataMapper.InsertOrUpdate model s in atomic r s s'.
Proof.
  destruct s as [[c t f n tr] w]. unfold PasswordDataMapper.InsertOrUpdate.
  unfold_db. atomic_steps.
Qed.

Lemma TokenDataMapper_InsertOrUpdate_atomic (uid token : string) (s : Sys) :
  let (r, s') := TokenDataMapper.InsertOrUpdate uid token s in atomic r s s'.
Proof.
  destruct s as [[c t f n tr] w]. unfold TokenDataMapper.InsertOrUpdate.
  unfold_db. atomic_steps.
Qed.

Lemma UserDataMapper_InsertOrUpdate_atomic (uid : string) (status : Z) (s : Sys) :
  let (r, s') := UserDataMapper.InsertOrUpdate uid status s in atomic r s s'.
Proof.
  destruct s as [[c t f n tr] w]. unfold UserDataMapper.InsertOrUpdate.
  unfold_db. atomic_steps.
Qed.



(** ** Runs without faults *)

Lemma no_faults_after (s : Sys) st k evs w : no_faults s → no_faults (after s st k evs w).
Proof. intros H i. apply H. Qed.

Lemma Bind_run_present (uid : string) (account : user_Account) (s : Sys) row rest :
  no_faults s →
  filter (λ r, account_is (Keyword account) (Account account) r = true)
    (accounts (committed (db s))) = row :: rest →
  let tx := fresh (dom (txs (db s))) in
  AccountDataMapper.Bind uid account s
  = (Some ErrAccountBindExists,
     after s (committed (db s)) 2 [EvBegin tx; EvQuery OnDB TAccount; EvRollback tx] (world s)).
Proof.
  destruct s as [[c t f n tr] w]. unfold no_faults. simpl. intros Hnf Hrows.
  unfold AccountDataMapper.Bind. no_fault_run Hnf. rewrite Hrows. simpl. gmap_simpl.
  rewrite <- ?app_assoc. reflexivity.
Qed.

Lemma Bind_run_absent (uid : string) (account : user_Account) (s : Sys) :
  no_faults s →
  filter (λ r, account_is (Keyword account) (Account account) r = true)
    (accounts (committed (db s))) = [] →
  let tx := fresh (dom (txs (db s))) in
  let ins := InsertAccount uid (Keyword account) (Account account) (now_Unix s) in
  AccountDataMapper.Bind uid account s
  = (None,
     after s (apply_stmt (committed (db s)) ins) 4
       [EvBegin tx; EvQuery OnDB TAccount; EvExec (OnTx tx) ins; EvCommit tx; EvRollback tx]
       (tick (world s))).
Proof.
  destruct s as [[c t f n tr] w]. unfold no_faults, now_Unix. simpl. intros Hnf Hrows.
  unfold AccountDataMapper.Bind. no_fault_run Hnf. rewrite Hrows. simpl. no_fault_run Hnf.
  reflexivity.
Qed.

Lemma FindOrInsert_run_present (u : User) (g : Generater) (account : user_Account) (s : Sys)
    row rest :
  no_faults s →
  filter (λ r, account_is (Keyword account) (Account account) r = true)
    (accounts (committed (db s))) = row :: rest →
  let tx := fresh (dom (txs (db s))) in
  AccountDataMapper.FindOrInsert u g account s
  = ((AccountModel_UID row, None),
     after s (committed (db s)) 2 [EvBegin tx; EvQuery OnDB TAccount; EvRollback tx] (world s)).
Proof.
  destruct s as [[c t f n tr] w]. unfold no_faults. simpl. intros Hnf Hrows.
  unfold AccountDataMapper.FindOrInsert. no_fault_run Hnf. rewrite Hrows. simpl. gmap_simpl.
  rewrite <- ?app_assoc. reflexivity.
Qed.

(** The statements [FindOrInsert] and [Insert] execute for a new account. *)
Lemma FindOrInsert_run_absent (u : User) (g : Generater) (account : user_Account) (s : Sys)
    uid e w1 :
  no_faults s →
  filter (λ r, account_is (Keyword account) (Account account) r = true)
    (accounts (committed (db s))) = [] →
  g (world s) = ((uid, e), w1) →
  let tx := fresh (dom (txs (db s))) in
  let now := now_of w1 in
  let inserts :=
    InsertAccount uid (Keyword account) (Account account) now
      :: (if HasFlag u FlagWithUser then [InsertUser uid UserStatusNormal now now] else []) in
  AccountDataMapper.FindOrInsert u g account s
  = ((uid, None),
     after s (fold_left apply_stmt inserts (committed (db s))) (3 + length inserts)
       ([EvBegin tx; EvQuery OnDB TAccount] ++ map (EvExec (OnTx tx)) inserts
          ++ [EvCommit tx; EvRollback tx])
       (tick w1)).
Proof.
  destruct s as [[c t f n tr] w]. unfold no_faults. simpl. intros Hnf Hrows Hg.
  unfold AccountDataMapper.FindOrInsert. no_fault_run Hnf. rewrite Hrows. simpl. rewrite Hg. simpl.
  no_fault_run Hnf.
  destruct (HasFlag u FlagWithUser); simpl; no_fault_run Hnf; reflexivity.
Qed.

Lemma run_upsert_commit (call : Upsert) (s : Sys) :
  let (r, s') := run_upsert call s in
  match r with
  | None =>
      committed (db s')
      = upserted (upsert_update call (now_Unix s)) (upsert_insert call (now_Unix s))
          (committed (db s))
  | Some _ => committed (db s') = committed (db s)
  end.
Proof.
  destruct s as [[c t f n tr] w]. unfold now_Unix, now_of, upserted.
  destruct call; simpl;
    unfold PasswordDataMapper.InsertOrUpdate, TokenDataMapper.InsertOrUpdate,
      UserDataMapper.InsertOrUpdate;
    unfold_db;
    repeat first
      [ reflexivity
      | fault_case; gmap_simpl
      | match goal with
        | |- context [if negb ?b then _ else _] => destruct b eqn:?; simpl
        end ].
Qed.

(** Without faults an upsert commits the outcome of the upsert discipline. *)
Lemma run_upsert_no_faults (call : Upsert) (s : Sys) :
  no_faults s →
  let (r, s') := run_upsert call s in
  r = None
  ∧ committed (db s')
    = upserted (upsert_update call (now_Unix s)) (upsert_insert call (now_Unix s))
        (committed (db s))
  ∧ no_faults s'
  ∧ txs (db s') = txs (db s).
Proof.
  destruct s as [[c t f n tr] w]. unfold no_faults, now_Unix, now_of, upserted. simpl.
  intros Hnf.
  destruct call; simpl;
    unfold PasswordDataMapper.InsertOrUpdate, TokenDataMapper.InsertOrUpdate,
      UserDataMapper.InsertOrUpdate;
    no_fault_run Hnf;
    match goal with
    | |- context [if negb ?b then _ else _] => destruct b eqn:?; simpl
    end;
    no_fault_run Hnf; repeat split; try reflexivity; try exact Hnf.
Qed.

(** ** Rows and counts *)

Lemma count_where_app {A} (p : A → bool) (l1 l2 : list A) :
  count_where p (l1 ++ l2) = count_where p l1 + count_where p l2.
Proof. unfold count_where. rewrite filter_app, length_app. lia. Qed.

Lemma count_where_zero {A} (p : A → bool) (l : list A) :
  count_where p l = 0 ↔ filter (λ r, p r = true) l = [].
Proof.
  unfold count_where. split.
  - intros H. apply length_zero_iff_nil. lia.
  - intros ->. reflexivity.
Qed.

Lemma filter_update_where {A} (p q : A → bool) (f : A → A) (l : list A) :
  (∀ r, p (f r) = p r) →
  filter (λ r, p r = true) (update_where q f l)
  = update_where q f (filter (λ r, p r = true) l).
Proof.
  intros Hf. unfold update_where. induction l as [|x l IH]; [reflexivity|].
  simpl. rewrite !filter_cons.
  assert (Hx : p (if q x then f x else x) = p x) by (destruct (q x); [apply Hf | reflexivity]).
  destruct (decide (p x = true)) as [Hp|Hp].
  - rewrite decide_True by (rewrite Hx; exact Hp). simpl. rewrite IH. reflexivity.
  - rewrite decide_False by (rewrite Hx; exact Hp). exact IH.
Qed.

Lemma count_where_update_where {A} (p q : A → bool) (f : A → A) (l : list A) :
  (∀ r, p (f r) = p r) → count_where p (update_where q f l) = count_where p l.
Proof.
  intros Hf. unfold count_where. rewrite filter_update_where by exact Hf.
  unfold update_where. rewrite length_map. reflexivity.
Qed.

(** Updating the rows a predicate selects, seen through the same predicate. *)
Lemma filter_update_same {A} (p : A → bool) (f : A → A) (l : list A) :
  (∀ r, p (f r) = p r) →
  filter (λ r, p r = true) (update_where p f l) = map f (filter (λ r, p r = true) l).
Proof.
  intros Hf. rewrite filter_update_where by exact Hf.
  unfold update_where. apply map_ext_in. intros r Hr.
  apply list_elem_of_In, list_elem_of_filter in Hr as [Hr _]. rewrite Hr. reflexivity.
Qed.

Lemma eqs_true (a b : string) : eqs a b = true ↔ a = b.
Proof. unfold eqs. apply bool_decide_eq_true. Qed.

Lemma eqs_refl (a : string) : eqs a a = true.
Proof. apply eqs_true. reflexivity. Qed.

Lemma run_upsert_events (call : Upsert) (s : Sys) :
  no_faults s → new_events s (snd (run_upsert call s)) = upsert_events call s.
Proof.
  destruct s as [[c t f n tr] w].
  unfold no_faults, new_events, upsert_events, now_Unix, now_of. simpl. intros Hnf.
  destruct call; simpl;
    unfold PasswordDataMapper.InsertOrUpdate, TokenDataMapper.InsertOrUpdate,
      UserDataMapper.InsertOrUpdate;
    no_fault_run Hnf;
    match goal with
    | |- context [(?x =? 0)%Z] => destruct (x =? 0)%Z eqn:?; simpl
    end;
    no_fault_run Hnf; apply drop_app_length.
Qed.

(** The upsert discipline on one table keeps at most one row per uid. *)
Lemma upsert_rows_bound {A} (uid_of : A → string) (f : A → A) (new : A) (m u : string)
    (l : list A) :
  (∀ r, uid_of (f r) = uid_of r) →
  uid_of new = m →
  count_where (λ r, eqs (uid_of r) u) l <= 1 →
  let l1 := update_where (λ r, eqs (uid_of r) m) f l in
  count_where (λ r, eqs (uid_of r) u) l1 <= 1
  ∧ (count_where (λ r, eqs (uid_of r) m) l = 0 →
     count_where (λ r, eqs (uid_of r) u) (l1 ++ [new]) <= 1).
Proof.
  intros Hf Hnew Hle l1.
  assert (H1 : count_where (λ r, eqs (uid_of r) u) l1 = count_where (λ r, eqs (uid_of r) u) l).
  { apply count_where_update_where. intros r. rewrite Hf. reflexivity. }
  split; [lia|].
  intros Hzero. rewrite count_where_app, H1.
  unfold count_where at 2. simpl. rewrite filter_cons, filter_nil.
  destruct (decide (eqs (uid_of new) u = true)) as [Heq|Hne]; simpl; [|lia].
  apply eqs_true in Heq. rewrite Hnew in Heq. subst u. lia.
Qed.

Lemma upserted_at_most_one_row (call : Upsert) (now : Z) (uid : string) (st : Store) :
  at_most_one_row uid st →
  at_most_one_row uid (upserted (upsert_update call now) (upsert_insert call now) st).
Proof.
  unfold at_most_one_row, password_rows, token_rows, user_rows, upserted.
  intros (Hp & Ht & Hu).
  destruct call as [model|id token|id status]; simpl.
  - destruct (upsert_rows_bound PasswordModel_UID
        (λ r, Build_PasswordModel (PasswordModel_UID r) (PasswordModel_HashMethod model)
                (PasswordModel_Salt model) (PasswordModel_Password model)
                (PasswordModel_UpdatedTime model))
        (Build_PasswordModel (PasswordModel_UID model) (PasswordModel_HashMethod model)
           (PasswordModel_Salt model) (PasswordModel_Password model)
           (PasswordModel_UpdatedTime model))
        (PasswordModel_UID model) uid (passwords st)) as [H1 H2]; try reflexivity; try exact Hp.
    destruct (count_where _ (passwords st) =? 0)%Z eqn:E; simpl.
    + apply Z.eqb_eq in E. repeat split; try assumption. apply H2. exact E.
    + repeat split; assumption.
  - destruct (upsert_rows_bound token_uid
        (λ r, Build_TokenRow (token_uid r) token now)
        (Build_TokenRow id token now) id uid (tokens st)) as [H1 H2];
      try reflexivity; try exact Ht.
    destruct (count_where _ (tokens st) =? 0)%Z eqn:E; simpl.
    + apply Z.eqb_eq in E. repeat split; try assumption. apply H2. exact E.
    + repeat split; assumption.
  - destruct (upsert_rows_bound UserModel_UID
        (λ r, Build_UserModel (UserModel_UID r) (UserModel_CreatedTime r) now status)
        (Build_UserModel id now now status) id uid (users st)) as [H1 H2];
      try reflexivity; try exact Hu.
    destruct (count_where _ (users st) =? 0)%Z eqn:E; simpl.
    + apply Z.eqb_eq in E. repeat split; try assumption. apply H2. exact E.
    + repeat split; assumption.
Qed.

Lemma run_upsert_at_most_one_row (call : Upsert) (uid : string) (s : Sys) :
  at_most_one_row uid (committed (db s)) →
  at_most_one_row uid (committed (db (snd (run_upsert call s)))).
Proof.
  intros H. pose proof (run_upsert_commit call s) as Hc.
  destruct (run_upsert call s) as [r s']. simpl.
  destruct r; rewrite Hc; [exact H|].
  apply upserted_at_most_one_row. exact H.
Qed.

(** C5: an upsert commits either nothing or the outcome of "UPDATE by uid,
    then INSERT only when no row was affected" (and when no call fails these
    are the calls it makes, in this order, on one transaction), so any
    sequence of upserts of the password, token and user-status stores, under
    any fault plan, keeps at most one row per uid in each of the three
    tables. *)
Theorem upserts_keep_one_row_per_uid (calls : list Upsert) (uid : string) (s : Sys) :
  at_most_one_row uid (committed (db s)) →
  at_most_one_row uid (committed (db (run_upserts calls s)))
  ∧ ∀ (call : Upsert) (s0 : Sys),
      (let (r, s') := run_upsert call s0 in
       match r with
       | None =>
           committed (db s')
           = upserted (upsert_update call (now_Unix s0)) (upsert_insert call (now_Unix s0))
               (committed (db s0))
       | Some _ => committed (db s') = committed (db s0)
       end)
      ∧ (no_faults s0 → new_events s0 (snd (run_upsert call s0)) = upsert_events call s0).
Proof.
  intros H. split.
  - revert s H. induction calls as [|call rest IH]; intros s H; simpl.
    + exact H.
    + apply IH. apply run_upsert_at_most_one_row. exact H.
  - intros call s0. split.
    + apply run_upsert_commit.
    + apply run_upsert_events.
Qed.

(** C5 (witness): upserts of all three kinds for "uid-1" from the empty store. *)
Lemma upserts_example :
  at_most_one_row "uid-1"
    (committed (db (run_upserts
      [ UpsertToken "uid-1" "t1"; UpsertUser "uid-1" UserStatusBanned;
        UpsertPassword (Build_PasswordModel "uid-1" "sha256" "salt" [] 0);
        UpsertToken "uid-1" "t2"; UpsertUser "uid-1" UserStatusNormal;
        UpsertPassword (Build_PasswordModel "uid-1" "sha256" "pepper" [] 1) ]
      example_sys))).
Proof.
  refine (proj1 (upserts_keep_one_row_per_uid _ "uid-1" example_sys _)).
  vm_compute. repeat split; discriminate.
Defined.

(** ** Bind *)

Lemma account_rows_insert (uid keyword name : string) (now : Z) (st : Store) :
  account_rows keyword name (apply_stmt st (InsertAccount uid keyword name now))
  = account_rows keyword name st + 1.
Proof.
  unfold account_rows, apply_stmt. simpl. rewrite count_where_app. f_equal.
  unfold count_where. rewrite filter_cons, filter_nil.
  rewrite decide_True; [reflexivity|].
  unfold account_is. simpl. rewrite !eqs_refl. reflexivity.
Qed.

Lemma account_rows_present (keyword name : string) (st : Store) :
  account_rows keyword name st ≠ 0 →
  ∃ row rest, filter (λ r, account_is keyword name r = true) (accounts st) = row :: rest.
Proof.
  unfold account_rows. intros H.
  destruct (filter (λ r, account_is keyword name r = true) (accounts st)) as [|row rest] eqn:E.
  - exfalso. apply H. apply count_where_zero. exact E.
  - exists row, rest. reflexivity.
Qed.

(** C4 (as amended): [Bind] opens a transaction and checks for the pair with
    a query on the database handle, outside that transaction.  When a row is
    present it returns ErrAccountBindExists and executes no INSERT; otherwise
    it inserts one row with the current timestamp on the transaction and
    commits, so that a second [Bind] of the same pair returns
    ErrAccountBindExists and leaves exactly one row for the pair. *)
Theorem Bind_checks_on_db_and_inserts_in_tx
    (uid uid' : string) (account : user_Account) (s : Sys) :
  no_faults s →
  let keyword := Keyword account in
  let name := Account account in
  let tx := fresh (dom (txs (db s))) in
  let ins := InsertAccount uid keyword name (now_Unix s) in
  let s1 :=
    after s (apply_stmt (committed (db s)) ins) 4
      [EvBegin tx; EvQuery OnDB TAccount; EvExec (OnTx tx) ins; EvCommit tx; EvRollback tx]
      (tick (world s)) in
  (account_rows keyword name (committed (db s)) ≠ 0 →
   AccountDataMapper.Bind uid account s
   = (Some ErrAccountBindExists,
      after s (committed (db s)) 2 [EvBegin tx; EvQuery OnDB TAccount; EvRollback tx]
        (world s)))
  ∧ (account_rows keyword name (committed (db s)) = 0 →
     AccountDataMapper.Bind uid account s = (None, s1)
     ∧ accounts (committed (db s1))
       = accounts (committed (db s)) ++ [Build_AccountModel uid keyword name (now_Unix s)]
     ∧ fst (AccountDataMapper.Bind uid' account s1) = Some ErrAccountBindExists
     ∧ committed (db (snd (AccountDataMapper.Bind uid' account s1))) = committed (db s1)
     ∧ account_rows keyword name (committed (db s1)) = 1).
Proof.
  intros Hnf keyword name tx ins s1. split.
  - intros Hrows. apply account_rows_present in Hrows as (row & rest & Hrows).
    apply (Bind_run_present uid account s row rest Hnf Hrows).
  - intros Hrows.
    assert (Hone : account_rows keyword name (committed (db s1)) = 1).
    { unfold s1, after, ins. simpl. rewrite account_rows_insert, Hrows. reflexivity. }
    split; [|split; [|split; [|split]]].
    + apply Bind_run_absent; [exact Hnf|]. apply count_where_zero. exact Hrows.
    + reflexivity.
    + assert (Hne : account_rows keyword name (committed (db s1)) ≠ 0) by lia.
      apply account_rows_present in Hne as (row & rest & Hr).
      rewrite (Bind_run_present uid' account s1 row rest); [reflexivity| |exact Hr].
      apply no_faults_after. exact Hnf.
    + assert (Hne : account_rows keyword name (committed (db s1)) ≠ 0) by lia.
      apply account_rows_present in Hne as (row & rest & Hr).
      rewrite (Bind_run_present uid' account s1 row rest); [reflexivity| |exact Hr].
      apply no_faults_after. exact Hnf.
    + exact Hone.
Qed.

Lemma example_sys_no_faults : no_faults example_sys.
Proof. intros k. reflexivity. Qed.

(** C4 (witness): binding [example_account] twice in the empty store. *)
Lemma Bind_twice_example :
  let s1 := snd (AccountDataMapper.Bind "uid-1" example_account example_sys) in
  fst (AccountDataMapper.Bind "uid-1" example_account example_sys) = None
  ∧ fst (AccountDataMapper.Bind "uid-2" example_account s1) = Some ErrAccountBindExists
  ∧ account_rows "email" "a@example.com"
      (committed (db (snd (AccountDataMapper.Bind "uid-2" example_account s1)))) = 1.
Proof.
  destruct (Bind_checks_on_db_and_inserts_in_tx "uid-1" "uid-2" example_account example_sys
              example_sys_no_faults) as [_ H].
  destruct H as (H1 & _ & H3 & H4 & H5); [vm_compute; reflexivity|].
  cbv zeta. rewrite H1. cbn [fst snd]. rewrite H3, H4.
  split; [reflexivity|]. split; [reflexivity|]. exact H5.
Defined.

(** C4 (counterexample): in the run that binds [example_account] in the empty
    store the INSERT goes to transaction 0, and the existence check is not
    issued on any transaction. *)
Lemma Bind_check_not_in_tx :
  let s' := snd (AccountDataMapper.Bind "uid-1" example_account example_sys) in
  fst (AccountDataMapper.Bind "uid-1" example_account example_sys) = None
  ∧ new_events example_sys s'
    = [EvBegin 0; EvQuery OnDB TAccount;
       EvExec (OnTx 0) (InsertAccount "uid-1" "email" "a@example.com" 1700000000);
       EvCommit 0; EvRollback 0]
  ∧ ¬ ∃ tx ev, ev ∈ new_events example_sys s' ∧ is_account_query ev = true
               ∧ on_tx tx ev = true.
Proof.
  assert (E : new_events example_sys
                (snd (AccountDataMapper.Bind "uid-1" example_account example_sys))
    = [EvBegin 0; EvQuery OnDB TAccount;
       EvExec (OnTx 0) (InsertAccount "uid-1" "email" "a@example.com" 1700000000);
       EvCommit 0; EvRollback 0]) by (vm_compute; reflexivity).
  cbv zeta. split; [vm_compute; reflexivity|]. split; [exact E|].
  rewrite E. intros (tx & ev & Hin & Hq & Htx).
  repeat (apply elem_of_cons in Hin as [->|Hin]; [simpl in Hq, Htx; discriminate|]).
  apply elem_of_nil in Hin. exact Hin.
Qed.

(** ** FindOrInsert *)

Lemma account_is_new (uid keyword name : string) (now : Z) :
  account_is keyword name (Build_AccountModel uid keyword name now) = true.
Proof. unfold account_is. simpl. rewrite !eqs_refl. reflexivity. Qed.

(** What the inserts of [FindOrInsert] leave in the store. *)
Lemma FindOrInsert_inserts (flag : bool) (uid keyword name : string) (now : Z) (st : Store) :
  let inserts :=
    InsertAccount uid keyword name now
      :: (if flag then [InsertUser uid UserStatusNormal now now] else []) in
  let st1 := fold_left apply_stmt inserts st in
  accounts st1 = accounts st ++ [Build_AccountModel uid keyword name now]
  ∧ users st1
    = users st ++ (if flag then [Build_UserModel uid now now UserStatusNormal] else [])
  ∧ passwords st1 = passwords st
  ∧ tokens st1 = tokens st.
Proof.
  destruct flag; simpl; unfold apply_stmt; simpl; rewrite ?app_nil_r; repeat split.
Qed.

(** C6: [FindOrInsert] returns the uid of the first row stored for the
    account when there is one, changing nothing; otherwise it takes a uid
    from the generator, inserts one account row and, under [FlagWithUser],
    one user row with status Normal, both on the one transaction it commits,
    and returns that uid.  A second call for the same account then returns
    the same uid and changes nothing, leaving one account row for the pair. *)
Theorem FindOrInsert_finds_or_inserts_once
    (u : User) (g g' : Generater) (account : user_Account) (s : Sys) :
  no_faults s →
  let keyword := Keyword account in
  let name := Account account in
  let tx := fresh (dom (txs (db s))) in
  let uid := fst (fst (g (world s))) in
  let w1 := snd (g (world s)) in
  let now := now_of w1 in
  let inserts :=
    InsertAccount uid keyword name now
      :: (if HasFlag u FlagWithUser then [InsertUser uid UserStatusNormal now now] else []) in
  let st1 := fold_left apply_stmt inserts (committed (db s)) in
  let s1 :=
    after s st1 (3 + length inserts)
      ([EvBegin tx; EvQuery OnDB TAccount] ++ map (EvExec (OnTx tx)) inserts
         ++ [EvCommit tx; EvRollback tx])
      (tick w1) in
  (∀ row rest,
     filter (λ r, account_is keyword name r = true) (accounts (committed (db s))) = row :: rest →
     AccountDataMapper.FindOrInsert u g account s
     = ((AccountModel_UID row, None),
        after s (committed (db s)) 2 [EvBegin tx; EvQuery OnDB TAccount; EvRollback tx]
          (world s)))
  ∧ (account_rows keyword name (committed (db s)) = 0 →
     AccountDataMapper.FindOrInsert u g account s = ((uid, None), s1)
     ∧ accounts st1 = accounts (committed (db s)) ++ [Build_AccountModel uid keyword name now]
     ∧ users st1
       = users (committed (db s))
           ++ (if HasFlag u FlagWithUser
               then [Build_UserModel uid now now UserStatusNormal] else [])
     ∧ passwords st1 = passwords (committed (db s))
     ∧ tokens st1 = tokens (committed (db s))
     ∧ fst (AccountDataMapper.FindOrInsert u g' account s1) = (uid, None)
     ∧ committed (db (snd (AccountDataMapper.FindOrInsert u g' account s1))) = st1
     ∧ account_rows keyword name st1 = 1).
Proof.
  intros Hnf keyword name tx uid w1 now inserts st1 s1. split.
  - intros row rest Hrows. apply (FindOrInsert_run_present u g account s row rest Hnf Hrows).
  - intros Hzero.
    pose proof (FindOrInsert_inserts (HasFlag u FlagWithUser) uid keyword name now
                  (committed (db s))) as (Ha & Hu & Hp & Ht).
    fold inserts in Ha, Hu, Hp, Ht. fold st1 in Ha, Hu, Hp, Ht.
    assert (Hrows1 : filter (λ r, account_is keyword name r = true) (accounts st1)
                     = [Build_AccountModel uid keyword name now]).
    { rewrite Ha, filter_app. apply count_where_zero in Hzero. rewrite Hzero.
      rewrite filter_cons, filter_nil, decide_True by apply account_is_new. reflexivity. }
    assert (Hnf1 : no_faults s1) by (apply no_faults_after; exact Hnf).
    pose proof (FindOrInsert_run_present u g' account s1 _ _ Hnf1 Hrows1) as Hsecond.
    split; [|repeat split; try assumption].
    + assert (Hg : g (world s) = ((uid, snd (fst (g (world s)))), w1))
        by (unfold uid, w1; destruct (g (world s)) as [[a b] c]; reflexivity).
      apply count_where_zero in Hzero.
      apply (FindOrInsert_run_absent u g account s uid _ w1 Hnf Hzero Hg).
    + rewrite Hsecond. reflexivity.
    + rewrite Hsecond. reflexivity.
    + unfold account_rows, count_where. fold keyword name. rewrite Hrows1. reflexivity.
Qed.

(** C6 (witness): the account of [example_account] in the empty store, under
    [FlagWithUser]. *)
Lemma FindOrInsert_twice_example :
  let g := UIDGenerater example_user in
  let s1 := snd (AccountDataMapper.FindOrInsert example_user g example_account example_sys) in
  fst (AccountDataMapper.FindOrInsert example_user g example_account example_sys)
  = ("uid-1", None)
  ∧ fst (AccountDataMapper.FindOrInsert example_user g example_account s1) = ("uid-1", None)
  ∧ account_rows "email" "a@example.com"
      (committed (db (snd (AccountDataMapper.FindOrInsert example_user g example_account s1))))
    = 1.
Proof.
  destruct (FindOrInsert_finds_or_inserts_once example_user (UIDGenerater example_user)
              (UIDGenerater example_user) example_account example_sys
              example_sys_no_faults) as [_ H].
  destruct H as (H1 & _ & _ & _ & _ & H2 & H3 & H4); [vm_compute; reflexivity|].
  cbv zeta. rewrite H1. cbn [fst snd]. rewrite H2, H3.
  split; [reflexivity|]. split; [reflexivity|]. exact H4.
Defined.

(** C10 (as amended): when no row matches and the generator returns an error,
    the error is dropped: [FindOrInsert] inserts the account row (and the
    user row under [FlagWithUser]) under the string the generator returned
    beside its error, and returns that string with a nil error. *)
Theorem FindOrInsert_drops_generator_error
    (u : User) (g : Generater) (account : user_Account) (s : Sys)
    (uid : string) (e : Err) (w1 : World) :
  no_faults s →
  account_rows (Keyword account) (Account account) (committed (db s)) = 0 →
  g (world s) = ((uid, Some e), w1) →
  let now := now_of w1 in
  let r := fst (AccountDataMapper.FindOrInsert u g account s) in
  let st' := committed (db (snd (AccountDataMapper.FindOrInsert u g account s))) in
  r = (uid, None)
  ∧ accounts st'
    = accounts (committed (db s))
        ++ [Build_AccountModel uid (Keyword account) (Account account) now]
  ∧ users st'
    = users (committed (db s))
        ++ (if HasFlag u FlagWithUser then [Build_UserModel uid now now UserStatusNormal]
            else []).
Proof.
  intros Hnf Hzero Hg now r st'. unfold r, st'.
  apply count_where_zero in Hzero.
  rewrite (FindOrInsert_run_absent u g account s uid (Some e) w1 Hnf Hzero Hg).
  cbn [fst snd]. unfold after. cbn [db committed].
  pose proof (FindOrInsert_inserts (HasFlag u FlagWithUser) uid (Keyword account)
                (Account account) (now_of w1) (committed (db s))) as (Ha & Hu & _).
  split; [reflexivity|]. split; [exact Ha | exact Hu].
Qed.

(** C10 (witness): a generator that fails and returns the empty string: the
    rows are inserted under the empty uid and the call reports success. *)
Lemma FindOrInsert_empty_uid_example :
  let g := failing_generater "" (ErrOther "no uid") in
  fst (AccountDataMapper.FindOrInsert example_user g example_account example_sys) = ("", None)
  ∧ map AccountModel_UID
      (accounts (committed (db (snd (AccountDataMapper.FindOrInsert example_user g example_account
                                       example_sys))))) = [""]
  ∧ map UserModel_UID
      (users (committed (db (snd (AccountDataMapper.FindOrInsert example_user g example_account
                                    example_sys))))) = [""].
Proof.
  intros g.
  destruct (FindOrInsert_drops_generator_error example_user g example_account example_sys
              "" (ErrOther "no uid") example_world example_sys_no_faults)
    as (H1 & H2 & H3); [vm_compute; reflexivity | reflexivity |].
  rewrite H1, H2, H3. repeat split.
Defined.

(** C10 (counterexample): a generator that fails and returns "partial" beside
    its error: the rows are inserted under "partial", not under the empty
    string, and "partial" is the uid returned. *)
Lemma FindOrInsert_uid_not_empty_on_error :
  let g := failing_generater "partial" (ErrOther "no uid") in
  fst (AccountDataMapper.FindOrInsert example_user g example_account example_sys)
  = ("partial", None)
  ∧ map AccountModel_UID
      (accounts (committed (db (snd (AccountDataMapper.FindOrInsert example_user g example_account
                                       example_sys))))) = ["partial"]
  ∧ map UserModel_UID
      (users (committed (db (snd (AccountDataMapper.FindOrInsert example_user g example_account
                                    example_sys))))) = ["partial"].
Proof. vm_compute. repeat split. Qed.





(** ** Tokens *)

Lemma uid_in_singleton {A} (uid_of : A → string) (uid : string) (r : A) :
  uid_in uid_of [uid] r = eqs (uid_of r) uid.
Proof. unfold uid_in, eqs. apply bool_decide_ext. apply list_elem_of_singleton. Qed.

Lemma filter_uid_in_singleton {A} (uid_of : A → string) (uid : string) (l : list A) :
  filter (λ r, uid_in uid_of [uid] r = true) l = filter (λ r, eqs (uid_of r) uid = true) l.
Proof. apply list_filter_iff. intros r. rewrite uid_in_singleton. reflexivity. Qed.




Lemma Revoke_run (u : User) (uid token : string) (w1 : World) (s : Sys) :
  no_faults s →
  TokenGenerater u (world s) = ((token, None), w1) →
  fst (TokenDataMapper.Revoke u uid s) = (token, None)
  ∧ no_faults (snd (TokenDataMapper.Revoke u uid s))
  ∧ committed (db (snd (TokenDataMapper.Revoke u uid s)))
    = upserted (UpdateTokenWhereUID token (now_of w1) uid) (InsertToken uid token (now_of w1))
        (committed (db s)).
Proof.
  intros Hnf Hg. unfold TokenDataMapper.Revoke, bind, generate. rewrite Hg. simpl.
  pose proof (run_upsert_no_faults (UpsertToken uid token) (Build_Sys (db s) w1) Hnf) as H.
  simpl in H.
  destruct (TokenDataMapper.InsertOrUpdate uid token _) as [r s'].
  destruct H as (-> & Hc & Hnf' & _). simpl. repeat split; assumption.
Qed.




(** ** Passwords *)

Lemma byte_to_Z_inj (x y : byte) : byte_to_Z x = byte_to_Z y → x = y.
Proof.
  unfold byte_to_Z. intros H. apply N2Z.inj in H.
  assert (Hs : Some x = Some y)
    by (rewrite <- (Byte.of_to_N x), <- (Byte.of_to_N y), H; reflexivity).
  injection Hs as ->. reflexivity.
Qed.

Lemma Compare_zero (a b : list byte) : bytes.Compare a b = 0 ↔ a = b.
Proof.
  revert b. induction a as [|x a IH]; intros [|y b]; simpl;
    try (split; [discriminate|discriminate]).
  - split; reflexivity.
  - destruct (byte_to_Z x <? byte_to_Z y)%Z eqn:E1.
    + apply Z.ltb_lt in E1. split; [discriminate|]. intros H. injection H as -> _. lia.
    + destruct (byte_to_Z y <? byte_to_Z x)%Z eqn:E2.
      * apply Z.ltb_lt in E2. split; [discriminate|]. intros H. injection H as -> _. lia.
      * apply Z.ltb_ge in E1, E2. rewrite IH. split.
        -- intros ->. f_equal. apply byte_to_Z_inj. lia.
        -- intros H. injection H as _ ->. reflexivity.
Qed.

Lemma Compare_eqb (a b : list byte) : (bytes.Compare a b =? 0)%Z = bool_decide (a = b).
Proof.
  destruct (decide (a = b)) as [H|H].
  - rewrite bool_decide_eq_true_2 by exact H. apply Z.eqb_eq, Compare_zero. exact H.
  - rewrite bool_decide_eq_false_2 by exact H. apply Z.eqb_neq.
    intros H0. apply H, Compare_zero. exact H0.
Qed.

Lemma VerifyPassword_no_row (registry : gmap string HashFunc) (u : User)
    (uid password : string) (s : Sys) :
  faults (db s) (calls (db s)) = None →
  uid = ""
  ∨ filter (λ r, eqs (PasswordModel_UID r) uid = true) (passwords (committed (db s))) = [] →
  fst (PasswordDataMapper.VerifyPassword registry u uid password s) = (false, Some ErrUserNotFound).
Proof.
  destruct s as [[c t f n tr] w]. simpl. intros Hnf H.
  unfold PasswordDataMapper.VerifyPassword, PasswordDataMapper.Find, bind.
  destruct (eqs uid "") eqn:E; [reflexivity|].
  destruct H as [->|H]; [rewrite eqs_refl in E; discriminate E|].
  unfold_db. rewrite Hnf. simpl. rewrite H. reflexivity.
Qed.

Lemma VerifyPassword_row (registry : gmap string HashFunc) (u : User)
    (uid password : string) (s : Sys) (row : PasswordModel) (rest : list PasswordModel) :
  faults (db s) (calls (db s)) = None →
  uid ≠ "" →
  filter (λ r, eqs (PasswordModel_UID r) uid = true) (passwords (committed (db s)))
  = row :: rest →
  fst (PasswordDataMapper.VerifyPassword registry u uid password s)
  = match registry !! PasswordModel_HashMethod row with
    | None => (false, Some ErrHashMethodNotFound)
    | Some hash =>
        match hash (PasswordKey u) (PasswordModel_Salt row) password with
        | (_, Some e) => (false, Some e)
        | (hashed, None) => (bool_decide (hashed = PasswordModel_Password row), None)
        end
    end.
Proof.
  destruct s as [[c t f n tr] w]. simpl. intros Hnf Huid Hrows.
  unfold PasswordDataMapper.VerifyPassword, PasswordDataMapper.Find, bind.
  destruct (eqs uid "") eqn:E; [apply eqs_true in E; contradiction|].
  unfold_db. rewrite Hnf. simpl. rewrite Hrows. simpl.
  destruct (registry !! PasswordModel_HashMethod row) as [hash|]; [|reflexivity].
  destruct (hash (PasswordKey u) (PasswordModel_Salt row) password) as [hashed [e|]];
    [reflexivity|].
  simpl. rewrite Compare_eqb. reflexivity.
Qed.

(** The first row of [uid] after an upsert of [model] carries the model. *)
Lemma password_upsert_head (model : PasswordModel) (now : Z) (st : Store) :
  ∃ row rest,
    filter (λ r, eqs (PasswordModel_UID r) (PasswordModel_UID model) = true)
      (passwords (upserted (upsert_update (UpsertPassword model) now)
                    (upsert_insert (UpsertPassword model) now) st))
    = row :: rest
    ∧ PasswordModel_HashMethod row = PasswordModel_HashMethod model
    ∧ PasswordModel_Salt row = PasswordModel_Salt model
    ∧ PasswordModel_Password row = PasswordModel_Password model.
Proof.
  unfold upserted. simpl.
  set (p := λ r : PasswordModel, eqs (PasswordModel_UID r) (PasswordModel_UID model)).
  set (f := λ r : PasswordModel,
              Build_PasswordModel (PasswordModel_UID r) (PasswordModel_HashMethod model)
                (PasswordModel_Salt model) (PasswordModel_Password model)
                (PasswordModel_UpdatedTime model)).
  assert (Hf : ∀ r, p (f r) = p r) by reflexivity.
  destruct (count_where p (passwords st) =? 0)%Z eqn:E; simpl.
  - apply Z.eqb_eq, count_where_zero in E.
    rewrite filter_app, (filter_update_same p f _ Hf), E. simpl.
    rewrite filter_cons, filter_nil, decide_True by (unfold p; simpl; apply eqs_refl).
    eexists _, _. split; [reflexivity|]. repeat split.
  - rewrite (filter_update_same p f _ Hf).
    destruct (filter (λ r, p r = true) (passwords st)) as [|x xs] eqn:Hx.
    + apply count_where_zero in Hx. rewrite Hx in E. discriminate E.
    + simpl. eexists _, _. split; [reflexivity|]. repeat split.
Qed.

(** What a successful [UpdatePassword] did. *)
Lemma UpdatePassword_success (registry : gmap string HashFunc) (u : User)
    (uid password : string) (s s1 : Sys) :
  PasswordDataMapper.UpdatePassword registry u uid password s = (None, s1) →
  ∃ hash salt hashed now,
    registry !! HashMethod u = Some hash
    ∧ fst (SaltGenerater u (world s)) = (salt, None)
    ∧ hash (PasswordKey u) salt password = (hashed, None)
    ∧ let model := Build_PasswordModel uid (HashMethod u) salt hashed now in
      committed (db s1)
      = upserted (upsert_update (UpsertPassword model) now)
          (upsert_insert (UpsertPassword model) now) (committed (db s)).
Proof.
  unfold PasswordDataMapper.UpdatePassword, bind, generate.
  destruct (SaltGenerater u (world s)) as [[salt e] w1] eqn:Hg.
  destruct e as [e|]; [intros H; discriminate H|].
  destruct (registry !! HashMethod u) as [hash|] eqn:Hreg; [|intros H; discriminate H].
  destruct (hash (PasswordKey u) salt password) as [hashed [e|]] eqn:Hh;
    [intros H; discriminate H|].
  unfold time_Now_Unix, time_Now, bind, ret. simpl.
  set (now := clock w1 (ticks w1) / 1000000000).
  set (s' := Build_Sys (db s) _).
  intros H.
  pose proof (run_upsert_commit
                (UpsertPassword (Build_PasswordModel uid (HashMethod u) salt hashed now)) s')
    as Hc.
  simpl in Hc. rewrite H in Hc.
  exists hash, salt, hashed, now.
  split; [reflexivity|]. split; [reflexivity|]. split; [exact Hh|]. exact Hc.
Qed.

(** C2 (as amended): for a non-empty uid, after a successful
    [UpdatePassword(uid, p)] a [VerifyPassword(uid, p)] whose query does not
    fail returns (true, nil), and [VerifyPassword(uid, p2)] returns
    (false, nil) for every p2 that the registered function hashes, under the
    stored salt, to other bytes than p. *)
Theorem UpdatePassword_then_VerifyPassword
    (registry : gmap string HashFunc) (u : User) (uid p : string) (s s1 : Sys) :
  uid ≠ "" →
  PasswordDataMapper.UpdatePassword registry u uid p s = (None, s1) →
  faults (db s1) (calls (db s1)) = None →
  ∃ hash salt hashed,
    registry !! HashMethod u = Some hash
    ∧ fst (SaltGenerater u (world s)) = (salt, None)
    ∧ hash (PasswordKey u) salt p = (hashed, None)
    ∧ fst (PasswordDataMapper.VerifyPassword registry u uid p s1) = (true, None)
    ∧ ∀ p2 hashed2,
        hash (PasswordKey u) salt p2 = (hashed2, None) →
        hashed2 ≠ hashed →
        fst (PasswordDataMapper.VerifyPassword registry u uid p2 s1) = (false, None).
Proof.
  intros Huid Hup Hnf.
  destruct (UpdatePassword_success registry u uid p s s1 Hup)
    as (hash & salt & hashed & now & Hreg & Hsalt & Hhash & Hc).
  exists hash, salt, hashed. repeat split; try assumption.
  - destruct (password_upsert_head (Build_PasswordModel uid (HashMethod u) salt hashed now)
                now (committed (db s))) as (row & rest & Hrows & Hm & Hs & Hp).
    simpl in Hrows, Hm, Hs, Hp. simpl in Hc. rewrite <- Hc in Hrows.
    rewrite (VerifyPassword_row registry u uid p s1 row rest Hnf Huid Hrows).
    rewrite Hm, Hreg, Hs, Hhash, Hp. rewrite bool_decide_eq_true_2 by reflexivity.
    reflexivity.
  - intros p2 hashed2 Hh2 Hne.
    destruct (password_upsert_head (Build_PasswordModel uid (HashMethod u) salt hashed now)
                now (committed (db s))) as (row & rest & Hrows & Hm & Hs & Hp).
    simpl in Hrows, Hm, Hs, Hp. simpl in Hc. rewrite <- Hc in Hrows.
    rewrite (VerifyPassword_row registry u uid p2 s1 row rest Hnf Huid Hrows).
    rewrite Hm, Hreg, Hs, Hh2, Hp. rewrite bool_decide_eq_false_2 by exact Hne.
    reflexivity.
Qed.

(** C2 (witness): the default registry and a fixed salt, in the empty store. *)
Lemma UpdatePassword_then_VerifyPassword_example :
  let s1 :=
    snd (PasswordDataMapper.UpdatePassword HashFuncMap example_user "uid-1" "secret"
           example_sys) in
  fst (PasswordDataMapper.VerifyPassword HashFuncMap example_user "uid-1" "secret" s1)
  = (true, None)
  ∧ fst (PasswordDataMapper.VerifyPassword HashFuncMap example_user "uid-1" "guess" s1)
    = (false, None).
Proof.
  intros s1.
  assert (Hup : PasswordDataMapper.UpdatePassword HashFuncMap example_user "uid-1" "secret"
                  example_sys = (None, s1)).
  { unfold s1. rewrite (surjective_pairing (PasswordDataMapper.UpdatePassword _ _ _ _ _)) at 1.
    apply pair_equal_spec. split; [vm_compute; reflexivity | reflexivity]. }
  assert (Huid : "uid-1" ≠ "") by discriminate.
  assert (Hnf : faults (db s1) (calls (db s1)) = None) by (vm_compute; reflexivity).
  destruct (UpdatePassword_then_VerifyPassword HashFuncMap example_user "uid-1" "secret"
              example_sys s1 Huid Hup Hnf)
    as (hash & salt & hashed & Hreg & Hsalt & Hh & Hv & Hv2).
  split; [exact Hv|].
  unfold HashFuncMap in Hreg. simpl in Hreg. rewrite lookup_singleton_eq in Hreg.
  injection Hreg as <-. simpl in Hsalt. injection Hsalt as <-.
  apply (Hv2 "guess" (fst (sha256_HashFunc "" "salt" "guess"))); [reflexivity|].
  apply (f_equal fst) in Hh. change (fst (hashed, @None Err)) with hashed in Hh.
  rewrite <- Hh. vm_compute. intros H. discriminate H.
Defined.

(** C2 (counterexample): [UpdatePassword] accepts the empty uid and stores a
    row for it, but [VerifyPassword] of the same password then reports
    ErrUserNotFound; and under a registered function that reads only the
    first eight bytes of the password, "password2" verifies against the row
    stored for "password1". *)
Lemma UpdatePassword_VerifyPassword_mismatch :
  let s1 :=
    snd (PasswordDataMapper.UpdatePassword HashFuncMap example_user "" "secret" example_sys) in
  let s2 :=
    snd (PasswordDataMapper.UpdatePassword example_registry example_user_crypt8 "uid-1"
           "password1" example_sys) in
  (fst (PasswordDataMapper.UpdatePassword HashFuncMap example_user "" "secret" example_sys)
   = None
   ∧ map PasswordModel_UID (passwords (committed (db s1))) = [""]
   ∧ fst (PasswordDataMapper.VerifyPassword HashFuncMap example_user "" "secret" s1)
     = (false, Some ErrUserNotFound))
  ∧ (fst (PasswordDataMapper.UpdatePassword example_registry example_user_crypt8 "uid-1"
            "password1" example_sys) = None
     ∧ "password2" ≠ "password1"
     ∧ fst (PasswordDataMapper.VerifyPassword example_registry example_user_crypt8 "uid-1"
              "password2" s2) = (true, None)).
Proof.
  cbv zeta. split.
  - vm_compute. repeat split.
  - split; [vm_compute; reflexivity|]. split; [discriminate|]. vm_compute. reflexivity.
Qed.

(** C3 (as amended): provided its query does not fail, [VerifyPassword]
    returns ErrUserNotFound when the uid is empty or has no password row;
    for a non-empty uid with a row it returns ErrHashMethodNotFound when the
    method of the first row is not registered, and (false, nil), not
    ErrUserNotFound, when the registered function hashes the password to
    other bytes than the stored ones. *)
Theorem VerifyPassword_errors
    (registry : gmap string HashFunc) (u : User) (uid password : string) (s : Sys) :
  faults (db s) (calls (db s)) = None →
  let rows :=
    filter (λ r, eqs (PasswordModel_UID r) uid = true) (passwords (committed (db s))) in
  (uid = "" ∨ rows = [] →
   fst (PasswordDataMapper.VerifyPassword registry u uid password s)
   = (false, Some ErrUserNotFound))
  ∧ ∀ row rest,
      uid ≠ "" →
      rows = row :: rest →
      (registry !! PasswordModel_HashMethod row = None →
       fst (PasswordDataMapper.VerifyPassword registry u uid password s)
       = (false, Some ErrHashMethodNotFound))
      ∧ ∀ hash hashed,
          registry !! PasswordModel_HashMethod row = Some hash →
          hash (PasswordKey u) (PasswordModel_Salt row) password = (hashed, None) →
          hashed ≠ PasswordModel_Password row →
          fst (PasswordDataMapper.VerifyPassword registry u uid password s) = (false, None).
Proof.
  intros Hnf rows. split.
  - intros H. apply VerifyPassword_no_row; assumption.
  - intros row rest Huid Hrows. unfold rows in Hrows.
    rewrite (VerifyPassword_row registry u uid password s row rest Hnf Huid Hrows).
    split.
    + intros Hreg. rewrite Hreg. reflexivity.
    + intros hash hashed Hreg Hh Hne. rewrite Hreg, Hh.
      rewrite bool_decide_eq_false_2 by exact Hne. reflexivity.
Qed.

(** C3 (witness): no row for "uid-1" in the empty store; then a row whose
    method "md5" is not in the default registry. *)
Lemma VerifyPassword_errors_example :
  let s1 :=
    snd (PasswordDataMapper.InsertOrUpdate (Build_PasswordModel "uid-1" "md5" "salt" [] 0)
           example_sys) in
  fst (PasswordDataMapper.VerifyPassword HashFuncMap example_user "uid-1" "secret" example_sys)
  = (false, Some ErrUserNotFound)
  ∧ fst (PasswordDataMapper.VerifyPassword HashFuncMap example_user "uid-1" "secret" s1)
    = (false, Some ErrHashMethodNotFound).
Proof.
  intros s1. split.
  - apply (VerifyPassword_errors HashFuncMap example_user "uid-1" "secret" example_sys);
      [reflexivity|]. right. reflexivity.
  - assert (Hnf : faults (db s1) (calls (db s1)) = None) by (vm_compute; reflexivity).
    destruct (VerifyPassword_errors HashFuncMap example_user "uid-1" "secret" s1 Hnf)
      as [_ H].
    destruct (H (Build_PasswordModel "uid-1" "md5" "salt" [] 0) []) as [H1 _].
    + discriminate.
    + vm_compute. reflexivity.
    + apply H1. reflexivity.
Defined.

(** C3 (counterexample): a row stored for the empty uid, with the method
    "md5" that the registry does not have: [VerifyPassword] reports
    ErrUserNotFound, not ErrHashMethodNotFound. *)
Lemma VerifyPassword_empty_uid_ignores_row :
  let s1 :=
    snd (PasswordDataMapper.InsertOrUpdate (Build_PasswordModel "" "md5" "salt" [] 0)
           example_sys) in
  passwords (committed (db s1)) = [Build_PasswordModel "" "md5" "salt" [] 0]
  ∧ HashFuncMap !! "md5" = None
  ∧ fst (PasswordDataMapper.VerifyPassword HashFuncMap example_user "" "secret" s1)
    = (false, Some ErrUserNotFound)
  ∧ fst (PasswordDataMapper.VerifyPassword HashFuncMap example_user "" "secret" s1)
    ≠ (false, Some ErrHashMethodNotFound).
Proof.
  cbv zeta. split; [vm_compute; reflexivity|]. split; [reflexivity|].
  assert (E : fst (PasswordDataMapper.VerifyPassword HashFuncMap example_user "" "secret"
                     (snd (PasswordDataMapper.InsertOrUpdate
                             (Build_PasswordModel "" "md5" "salt" [] 0) example_sys)))
              = (false, Some ErrUserNotFound)) by (vm_compute; reflexivity).
  split; [exact E|]. rewrite E. intros H. discriminate H.
Qed.

(** ** Find *)

(** C9: [AccountDataMapper.Find] with an empty keyword or an empty account
    name, and [PasswordDataMapper.Find] with an empty uid, return
    sql.ErrNoRows with the zero model and leave the state as it was: no call
    reaches the database, whatever the store holds. *)
Theorem Find_empty_is_ErrNoRows_without_query (keyword name : string) (s : Sys) :
  AccountDataMapper.Find "" name s = ((AccountModel_zero, Some ErrNoRows), s)
  ∧ AccountDataMapper.Find keyword "" s = ((AccountModel_zero, Some ErrNoRows), s)
  ∧ PasswordDataMapper.Find "" s = ((PasswordModel_zero, Some ErrNoRows), s).
Proof.
  unfold AccountDataMapper.Find, PasswordDataMapper.Find.
  rewrite !eqs_refl. rewrite orb_true_r. simpl. repeat split.
Qed.

(** With non-empty arguments [Find] does query the database. *)
Example Find_queries_example :
  new_events example_sys (snd (AccountDataMapper.Find "email" "a@example.com" example_sys))
  = [EvQuery OnDB TAccount]
  ∧ new_events example_sys (snd (PasswordDataMapper.Find "uid-1" example_sys))
    = [EvQuery OnDB TPassword].
Proof. vm_compute. split; reflexivity. Qed.

(** A fault at the second INSERT of [FindOrInsert] under [FlagWithUser]: the
    error is returned and the account row is not kept. *)
Example FindOrInsert_fault_example :
  let s :=
    Build_Sys (Build_DBState Store_empty ∅ (λ k, if (k =? 3)%nat then Some 7%nat else None) 0 [])
      example_world in
  fst (AccountDataMapper.FindOrInsert example_user (UIDGenerater example_user) example_account s)
  = ("", Some (ErrStorage 7))
  ∧ committed (db (snd (AccountDataMapper.FindOrInsert example_user (UIDGenerater example_user)
                          example_account s))) = Store_empty
  ∧ new_events s (snd (AccountDataMapper.FindOrInsert example_user (UIDGenerater example_user)
                         example_account s))
    = [EvBegin 0; EvQuery OnDB TAccount;
       EvExec (OnTx 0) (InsertAccount "uid-1" "email" "a@example.com" 1700000000);
       EvFault 7; EvRollback 0].
Proof. vm_compute. repeat split. Qed.

(** ** The facade built by [New] *)

Lemma HasFlag_lor (u1 u2 u : User) (f : Z) :
  Flag u = Z.lor (Flag u1) (Flag u2) → HasFlag u f = HasFlag u1 f || HasFlag u2 f.
Proof.
  unfold HasFlag. intros ->. rewrite Z.land_lor_distr_l.
  destruct (Z.land (Flag u1) f =? 0)%Z eqn:E1; destruct (Z.land (Flag u2) f =? 0)%Z eqn:E2;
    simpl.
  - apply Z.eqb_eq in E1, E2. rewrite E1, E2. reflexivity.
  - apply Z.eqb_neq in E2. apply negb_true_iff, Z.eqb_neq. rewrite Z.lor_eq_0_iff. tauto.
  - apply Z.eqb_neq in E1. apply negb_true_iff, Z.eqb_neq. rewrite Z.lor_eq_0_iff. tauto.
  - apply Z.eqb_neq in E1. apply negb_true_iff, Z.eqb_neq. rewrite Z.lor_eq_0_iff. tauto.
Qed.

(** X1: [New] keeps the flag it is given, and [HasFlag] tests its bits: a
    facade built with the union of two flag values has a flag exactly when
    one of the two has it, no facade has [FlagEmpty], the empty flag value
    has no flag, and of the four module flags each one has itself and none
    of the other three. *)
Theorem New_combines_module_flags
    (uuid_NewV1 : World → string * World) (rd : Reader) (a b f : Z) :
  let new := New uuid_NewV1 rd in
  HasFlag (new (Z.lor a b)) f = HasFlag (new a) f || HasFlag (new b) f
  ∧ HasFlag (new a) FlagEmpty = false
  ∧ HasFlag (new FlagEmpty) f = false
  ∧ ∀ g h,
      g ∈ [FlagWithAccount; FlagWithPassword; FlagWithToken; FlagWithUser] →
      h ∈ [FlagWithAccount; FlagWithPassword; FlagWithToken; FlagWithUser] →
      HasFlag (new g) h = bool_decide (g = h).
Proof.
  cbv zeta. split; [apply HasFlag_lor; reflexivity|].
  split; [unfold HasFlag, FlagEmpty; rewrite Z.land_0_r; reflexivity|].
  split; [reflexivity|].
  intros g h Hg Hh.
  repeat (apply elem_of_cons in Hg as [->|Hg]);
    try (apply elem_of_nil in Hg; contradiction);
    repeat (apply elem_of_cons in Hh as [->|Hh]);
    try (apply elem_of_nil in Hh; contradiction); reflexivity.
Qed.

(** ** Salts and hashes *)

Lemma EncodeToString_length (src : list byte) :
  String.length (hex.EncodeToString src) = (2 * length src)%nat.
Proof. induction src as [|b src IH]; simpl; [reflexivity|]. rewrite IH. lia. Qed.

Lemma EncodeToString_digits (src : list byte) :
  forallb is_hex_digit (list_ascii_of_string (hex.EncodeToString src)) = true.
Proof.
  induction src as [|b src IH]; [reflexivity|].
  cbn [hex.EncodeToString list_ascii_of_string forallb]. rewrite IH, andb_true_r.
  destruct b; vm_compute; reflexivity.
Qed.

Lemma bytes_of_string_length (s : string) :
  length (bytes_of_string s) = String.length s.
Proof.
  unfold bytes_of_string, list_byte_of_string. rewrite length_map.
  induction s as [|c s IH]; simpl; [reflexivity|]. rewrite IH. reflexivity.
Qed.

Lemma bytes_of_string_digits (s : string) :
  forallb (λ b, is_hex_digit (ascii_of_byte b)) (bytes_of_string s)
  = forallb is_hex_digit (list_ascii_of_string s).
Proof.
  unfold bytes_of_string, list_byte_of_string.
  induction (list_ascii_of_string s) as [|c l IH]; [reflexivity|].
  simpl. rewrite IH, ascii_of_byte_of_ascii. reflexivity.
Qed.

Lemma blocks_length (fuel : nat) (h : list Z) (p : list byte) :
  length h = 8%nat → length (sha256.blocks fuel h p) = 8%nat.
Proof.
  revert h p. induction fuel as [|fuel IH]; intros h p Hh; simpl; [exact Hh|].
  destruct p as [|b p]; [exact Hh|]. apply IH. reflexivity.
Qed.

Lemma Sum256_length (data : list byte) : length (sha256.Sum256 data) = 32%nat.
Proof.
  unfold sha256.Sum256.
  assert (H : ∀ l : list Z, length (concat (map sha256.word_bytes l)) = (4 * length l)%nat).
  { induction l as [|x l IH]; [reflexivity|]. simpl in *. rewrite IH. lia. }
  rewrite H, blocks_length; [reflexivity|]. vm_compute. reflexivity.
Qed.

(** X2: for every key, salt and password the function registered under
    "sha256" returns no error and 64 bytes, each a lower-case hexadecimal
    digit. *)
Theorem sha256_HashFunc_returns_64_hex_digits (key salt password : string) :
  let r := sha256_HashFunc key salt password in
  snd r = None
  ∧ length (fst r) = 64%nat
  ∧ forallb (λ b, is_hex_digit (ascii_of_byte b)) (fst r) = true.
Proof.
  cbv zeta. unfold sha256_HashFunc. cbn [fst snd].
  split; [reflexivity|]. split.
  - rewrite bytes_of_string_length, EncodeToString_length.
    unfold sha256.Sum. rewrite app_nil_l, Sum256_length. reflexivity.
  - rewrite bytes_of_string_digits. apply EncodeToString_digits.
Qed.

Lemma RandomBytes_run (rd : Reader) (len : nat) (w : World) :
  read_error rd (seed w) = None →
  ∃ salt,
    RandomBytes rd len w = ((salt, None), Build_World (clock w) (ticks w) (seed w + len))
    ∧ String.length salt = (2 * len)%nat.
Proof.
  intros H. unfold RandomBytes, rand_Read. rewrite H.
  eexists. split; [reflexivity|].
  rewrite EncodeToString_length, length_map, length_seq. reflexivity.
Qed.

(** X3: when the random source cannot be read, [RandomBytes] returns the
    empty string and the error of the source, and consumes nothing;
    otherwise it consumes [RandomBytesLength] bytes of the source and returns
    twice as many characters, each a lower-case hexadecimal digit, and no
    error. *)
Theorem RandomBytes_returns_hex_of_the_length (rd : Reader) (len : nat) (w : World) :
  match read_error rd (seed w) with
  | Some e => RandomBytes rd len w = (("", Some e), w)
  | None =>
      ∃ salt,
        RandomBytes rd len w
        = ((salt, None), Build_World (clock w) (ticks w) (seed w + len))
        ∧ String.length salt = (2 * len)%nat
        ∧ forallb is_hex_digit (list_ascii_of_string salt) = true
  end.
Proof.
  unfold RandomBytes, rand_Read.
  destruct (read_error rd (seed w)) as [e|]; [reflexivity|].
  eexists. split; [reflexivity|]. split.
  - rewrite EncodeToString_length, length_map, length_seq. reflexivity.
  - apply EncodeToString_digits.
Qed.

(** ** Unbind *)

Lemma Unbind_run (uid : string) (account : user_Account) (s : Sys) :
  no_faults s →
  let tx := fresh (dom (txs (db s))) in
  let del := DeleteAccountWhere uid (Keyword account) (Account account) in
  AccountDataMapper.Unbind uid account s
  = (None,
     after s (apply_stmt (committed (db s)) del) 3
       [EvBegin tx; EvExec (OnTx tx) del; EvCommit tx; EvRollback tx] (world s)).
Proof.
  destruct s as [[c t f n tr] w]. unfold no_faults. simpl. intros Hnf.
  unfold AccountDataMapper.Unbind. no_fault_run Hnf. reflexivity.
Qed.

Lemma Unbind_atomic (uid : string) (account : user_Account) (s : Sys) :
  let (r, s') := AccountDataMapper.Unbind uid account s in atomic r s s'.
Proof.
  destruct s as [[c t f n tr] w]. unfold AccountDataMapper.Unbind. unfold_db. atomic_steps.
Qed.

Lemma filter_false_all {A} (p : A → bool) (l : list A) :
  filter (λ r, p r = true) l = [] → filter (λ r, p r = false) l = l.
Proof.
  induction l as [|x l IH]; [reflexivity|].
  rewrite !filter_cons. destruct (p x) eqn:E.
  - rewrite decide_True by reflexivity. discriminate.
  - rewrite decide_False by discriminate. rewrite decide_True by reflexivity.
    intros H. f_equal. apply IH. exact H.
Qed.

Lemma filter_nil_impl {A} (p q : A → bool) (l : list A) :
  (∀ r, q r = true → p r = true) →
  filter (λ r, p r = true) l = [] → filter (λ r, q r = true) l = [].
Proof.
  intros Hpq. induction l as [|x l IH]; [reflexivity|].
  rewrite !filter_cons.
  destruct (decide (p x = true)) as [Hp|Hp]; [discriminate|].
  intros H. rewrite decide_False by (intros Hq; apply Hp, Hpq, Hq). apply IH. exact H.
Qed.

Lemma example_accounts_sys_no_faults : no_faults example_accounts_sys.
Proof. intros k. reflexivity. Qed.

(** X4: when no call of the database fails, [Unbind] returns nil whether or
    not the binding exists, removes exactly the account rows that carry the
    given uid, keyword and account name, keeps every other account row in its
    place (among them a binding of the same account to another uid), leaves
    the other three tables as they were, and leaves no transaction open. *)
Theorem Unbind_removes_the_binding_only (uid : string) (account : user_Account) (s : Sys) :
  no_faults s →
  let r := AccountDataMapper.Unbind uid account s in
  let st := committed (db s) in
  let st' := committed (db (snd r)) in
  fst r = None
  ∧ accounts st'
    = filter (λ r, ¬ (AccountModel_UID r = uid ∧ AccountModel_Keyword r = Keyword account
                      ∧ AccountModel_Account r = Account account)) (accounts st)
  ∧ passwords st' = passwords st ∧ tokens st' = tokens st ∧ users st' = users st
  ∧ txs (db (snd r)) = txs (db s).
Proof.
  intros Hnf. cbv zeta. rewrite (Unbind_run uid account s Hnf). cbn [fst snd].
  unfold after, apply_stmt. simpl.
  split; [reflexivity|]. split; [|repeat split].
  apply list_filter_iff. intros r.
  rewrite !andb_false_iff, <- !not_true_iff_false, !eqs_true. 
  split.
  - intros [[H|H]|H] (H1 & H2 & H3); apply H; assumption.
  - intros H.
    destruct (decide (AccountModel_UID r = uid)) as [H1|H1]; [|left; left; exact H1].
    destruct (decide (AccountModel_Keyword r = Keyword account)) as [H2|H2];
      [|left; right; exact H2].
    right. intros H3. apply H. repeat split; assumption.
Qed.

(** X4 (witness): of three bindings, unbinding the phone of "uid-1" leaves the two
    others; unbinding under "uid-2" the account that "uid-1" holds returns
    nil and removes nothing. *)
Lemma Unbind_example :
  let r := AccountDataMapper.Unbind "uid-1" example_phone example_accounts_sys in
  fst r = None
  ∧ map AccountModel_Account (accounts (committed (db (snd r))))
    = ["a@example.com"; "b@example.com"]
  ∧ fst (AccountDataMapper.Unbind "uid-2" example_account example_accounts_sys) = None
  ∧ accounts (committed (db (snd (AccountDataMapper.Unbind "uid-2" example_account
                                     example_accounts_sys))))
    = accounts (committed (db example_accounts_sys)).
Proof.
  destruct (Unbind_removes_the_binding_only "uid-1" example_phone example_accounts_sys
              example_accounts_sys_no_faults) as (H1 & H2 & _).
  destruct (Unbind_removes_the_binding_only "uid-2" example_account example_accounts_sys
              example_accounts_sys_no_faults) as (H3 & H4 & _).
  cbv zeta. rewrite H1, H2, H3, H4. vm_compute. repeat split.
Defined.

(** X5: when no call of the database fails and the account is not bound,
    [Bind] followed by [Unbind] of the same uid and account both return nil
    and leave the committed store exactly as it was before the two calls, so
    that the account can then be bound again, to any uid. *)
Theorem Bind_then_Unbind_restores_the_store
    (uid uid' : string) (account : user_Account) (s : Sys) :
  no_faults s →
  account_rows (Keyword account) (Account account) (committed (db s)) = 0 →
  let s1 := snd (AccountDataMapper.Bind uid account s) in
  let s2 := snd (AccountDataMapper.Unbind uid account s1) in
  fst (AccountDataMapper.Bind uid account s) = None
  ∧ fst (AccountDataMapper.Unbind uid account s1) = None
  ∧ committed (db s2) = committed (db s)
  ∧ fst (AccountDataMapper.Bind uid' account s2) = None.
Proof.
  intros Hnf Hzero. cbv zeta. apply count_where_zero in Hzero.
  rewrite (Bind_run_absent uid account s Hnf Hzero). cbn [fst snd].
  set (s1 := after s _ 4 _ _).
  assert (Hnf1 : no_faults s1) by (apply no_faults_after; exact Hnf).
  rewrite (Unbind_run uid account s1 Hnf1). cbn [fst snd].
  set (s2 := after s1 _ 3 _ _).
  assert (Hst : committed (db s2) = committed (db s)).
  { unfold s2, s1, after, apply_stmt. simpl.
    destruct (committed (db s)) as [a p t u]. simpl in *. f_equal.
    rewrite filter_app, filter_cons, filter_nil.
    rewrite decide_False by (simpl; rewrite !eqs_refl; discriminate).
    rewrite app_nil_r.
    apply (filter_false_all
             (λ r, eqs (AccountModel_UID r) uid && eqs (AccountModel_Keyword r) (Keyword account)
                   && eqs (AccountModel_Account r) (Account account))).
    apply (filter_nil_impl (account_is (Keyword account) (Account account))); [|exact Hzero].
    intros r Hr. unfold account_is. rewrite <- andb_assoc in Hr.
    apply andb_true_iff in Hr as [_ Hr]. exact Hr. }
  split; [reflexivity|]. split; [reflexivity|]. split; [exact Hst|].
  rewrite (Bind_run_absent uid' account s2); [reflexivity| |rewrite Hst; exact Hzero].
  apply no_faults_after. exact Hnf1.
Qed.

(** X5 (witness): binding and unbinding [example_account] in the empty store. *)
Lemma Bind_then_Unbind_example :
  let s1 := snd (AccountDataMapper.Bind "uid-1" example_account example_sys) in
  let s2 := snd (AccountDataMapper.Unbind "uid-1" example_account s1) in
  accounts (committed (db s1)) ≠ []
  ∧ committed (db s2) = Store_empty
  ∧ fst (AccountDataMapper.Bind "uid-2" example_account s2) = None.
Proof.
  destruct (Bind_then_Unbind_restores_the_store "uid-1" "uid-2" example_account example_sys
              example_sys_no_faults) as (_ & _ & H3 & H4); [vm_compute; reflexivity|].
  cbv zeta. rewrite H3, H4. split; [|split; reflexivity].
  vm_compute. discriminate.
Defined.

(** ** Lookup by account *)

Lemma Find_run (keyword name : string) (s : Sys) :
  faults (db s) (calls (db s)) = None →
  keyword ≠ "" →
  name ≠ "" →
  fst (AccountDataMapper.Find keyword name s)
  = match filter (λ r, account_is keyword name r = true) (accounts (committed (db s))) with
    | [] => (AccountModel_zero, Some ErrNoRows)
    | row :: _ => (row, None)
    end.
Proof.
  destruct s as [[c t f n tr] w]. simpl. intros Hnf Hk Hn.
  unfold AccountDataMapper.Find.
  destruct (eqs keyword "") eqn:E1; [apply eqs_true in E1; contradiction|].
  destruct (eqs name "") eqn:E2; [apply eqs_true in E2; contradiction|].
  simpl. unfold_db. rewrite Hnf. simpl.
  destruct (filter _ (accounts c)); reflexivity.
Qed.

Lemma AccountToUID_run (account : user_Account) (s : Sys) :
  faults (db s) (calls (db s)) = None →
  Keyword account ≠ "" →
  Account account ≠ "" →
  fst (AccountDataMapper.AccountToUID account s)
  = match filter (λ r, account_is (Keyword account) (Account account) r = true)
            (accounts (committed (db s))) with
    | [] => ("", None)
    | row :: _ => (AccountModel_UID row, None)
    end.
Proof.
  intros Hnf Hk Hn.
  pose proof (Find_run (Keyword account) (Account account) s Hnf Hk Hn) as H.
  unfold AccountDataMapper.AccountToUID, bind.
  destruct (AccountDataMapper.Find (Keyword account) (Account account) s) as [[model err] s'].
  simpl in H.
  destruct (filter _ (accounts (committed (db s)))) as [|row rest];
    injection H as -> ->; reflexivity.
Qed.

Lemma AccountToUID_empty (account : user_Account) (s : Sys) :
  Keyword account = "" ∨ Account account = "" →
  AccountDataMapper.AccountToUID account s = (("", None), s).
Proof.
  intros H. unfold AccountDataMapper.AccountToUID, AccountDataMapper.Find, bind.
  assert (E : eqs (Keyword account) "" || eqs (Account account) "" = true).
  { apply orb_true_iff. destruct H as [H|H]; [left|right]; apply eqs_true; exact H. }
  rewrite E. reflexivity.
Qed.

Lemma account_rows_after_insert (uid keyword name : string) (now : Z) (l : list AccountModel) :
  filter (λ r, account_is keyword name r = true) l = [] →
  filter (λ r, account_is keyword name r = true) (l ++ [Build_AccountModel uid keyword name now])
  = [Build_AccountModel uid keyword name now].
Proof.
  intros H. rewrite filter_app, H, filter_cons, filter_nil.
  rewrite decide_True by apply account_is_new. reflexivity.
Qed.

(** X6: for an account with a non-empty keyword and a non-empty name that
    is not bound, and when no call of the database fails, [AccountToUID]
    returns the empty uid and no error; after [Bind(uid, account)] it returns
    [uid], and [Find] returns the row with that uid, the keyword, the name
    and the time of the binding in seconds. *)
Theorem Bind_then_AccountToUID (uid : string) (account : user_Account) (s : Sys) :
  no_faults s →
  account_rows (Keyword account) (Account account) (committed (db s)) = 0 →
  Keyword account ≠ "" →
  Account account ≠ "" →
  let s1 := snd (AccountDataMapper.Bind uid account s) in
  fst (AccountDataMapper.AccountToUID account s) = ("", None)
  ∧ fst (AccountDataMapper.Bind uid account s) = None
  ∧ fst (AccountDataMapper.AccountToUID account s1) = (uid, None)
  ∧ fst (AccountDataMapper.Find (Keyword account) (Account account) s1)
    = (Build_AccountModel uid (Keyword account) (Account account) (now_Unix s), None).
Proof.
  intros Hnf Hzero Hk Hn. cbv zeta. apply count_where_zero in Hzero.
  rewrite (Bind_run_absent uid account s Hnf Hzero). cbn [fst snd].
  set (s1 := after s _ 4 _ _).
  assert (Hnf1 : no_faults s1) by (apply no_faults_after; exact Hnf).
  assert (Hrows : filter (λ r, account_is (Keyword account) (Account account) r = true)
                    (accounts (committed (db s1)))
                  = [Build_AccountModel uid (Keyword account) (Account account) (now_Unix s)])
    by (apply account_rows_after_insert; exact Hzero).
  split; [|split; [reflexivity|split]].
  - rewrite (AccountToUID_run account s (Hnf _) Hk Hn), Hzero. reflexivity.
  - rewrite (AccountToUID_run account s1 (Hnf1 _) Hk Hn), Hrows. reflexivity.
  - rewrite (Find_run _ _ s1 (Hnf1 _) Hk Hn), Hrows. reflexivity.
Qed.

(** X6 (witness): [example_account] in the empty store, bound to "uid-1". *)
Lemma Bind_then_AccountToUID_example :
  let s1 := snd (AccountDataMapper.Bind "uid-1" example_account example_sys) in
  fst (AccountDataMapper.AccountToUID example_account example_sys) = ("", None)
  ∧ fst (AccountDataMapper.AccountToUID example_account s1) = ("uid-1", None)
  ∧ fst (AccountDataMapper.Find "email" "a@example.com" s1)
    = (Build_AccountModel "uid-1" "email" "a@example.com" 1700000000, None).
Proof.
  destruct (Bind_then_AccountToUID "uid-1" example_account example_sys example_sys_no_faults)
    as (H1 & _ & H3 & H4); [vm_compute; reflexivity | discriminate | discriminate |].
  cbv zeta. rewrite H1, H3. split; [reflexivity|]. split; [reflexivity|]. exact H4.
Defined.

(** X7: [Bind] has no guard on empty strings: for an account whose keyword
    or name is empty and which is not bound, it stores the row and returns
    nil.  [AccountToUID] then still returns the empty uid, without a call of
    the database, while a second [Bind] reports ErrAccountBindExists and
    [AccountToUIDOrRegister] returns the uid the row was bound to. *)
Theorem empty_account_is_bound_but_not_found
    (u : User) (uid uid' : string) (account : user_Account) (s : Sys) :
  no_faults s →
  account_rows (Keyword account) (Account account) (committed (db s)) = 0 →
  Keyword account = "" ∨ Account account = "" →
  let s1 := snd (AccountDataMapper.Bind uid account s) in
  fst (AccountDataMapper.Bind uid account s) = None
  ∧ accounts (committed (db s1))
    = accounts (committed (db s))
        ++ [Build_AccountModel uid (Keyword account) (Account account) (now_Unix s)]
  ∧ AccountDataMapper.AccountToUID account s1 = (("", None), s1)
  ∧ fst (AccountDataMapper.Bind uid' account s1) = Some ErrAccountBindExists
  ∧ fst (AccountDataMapper.AccountToUIDOrRegister u account s1) = (uid, None).
Proof.
  intros Hnf Hzero Hempty. cbv zeta. apply count_where_zero in Hzero.
  rewrite (Bind_run_absent uid account s Hnf Hzero). cbn [fst snd].
  set (s1 := after s _ 4 _ _).
  assert (Hnf1 : no_faults s1) by (apply no_faults_after; exact Hnf).
  assert (Hrows : filter (λ r, account_is (Keyword account) (Account account) r = true)
                    (accounts (committed (db s1)))
                  = [Build_AccountModel uid (Keyword account) (Account account) (now_Unix s)])
    by (apply account_rows_after_insert; exact Hzero).
  split; [reflexivity|]. split; [reflexivity|].
  split; [apply AccountToUID_empty; exact Hempty|]. split.
  - rewrite (Bind_run_present uid' account s1 _ _ Hnf1 Hrows). reflexivity.
  - unfold AccountDataMapper.AccountToUIDOrRegister.
    rewrite (FindOrInsert_run_present u _ account s1 _ _ Hnf1 Hrows). reflexivity.
Qed.

(** X7 (witness): an account with keyword "email" and an empty name. *)
Lemma empty_account_example :
  let account := Build_user_Account "email" "" in
  let s1 := snd (AccountDataMapper.Bind "uid-1" account example_sys) in
  accounts (committed (db s1)) = [Build_AccountModel "uid-1" "email" "" 1700000000]
  ∧ fst (AccountDataMapper.AccountToUID account s1) = ("", None)
  ∧ fst (AccountDataMapper.Bind "uid-2" account s1) = Some ErrAccountBindExists
  ∧ fst (AccountDataMapper.AccountToUIDOrRegister example_user account s1) = ("uid-1", None).
Proof.
  destruct (empty_account_is_bound_but_not_found example_user "uid-1" "uid-2"
              (Build_user_Account "email" "") example_sys example_sys_no_faults)
    as (_ & H2 & H3 & H4 & H5); [vm_compute; reflexivity | right; reflexivity |].
  cbv zeta. rewrite H2, H3, H4, H5. repeat split.
Defined.

(** ** Register *)

Lemma Insert_run_present (u : User) (uid keyword name : string) (s : Sys) row rest :
  no_faults s →
  filter (λ r, account_is keyword name r = true) (accounts (committed (db s))) = row :: rest →
  let tx := fresh (dom (txs (db s))) in
  AccountDataMapper.Insert u uid keyword name s
  = (Some ErrAccountRegisterExists,
     after s (committed (db s)) 2 [EvBegin tx; EvQuery OnDB TAccount; EvRollback tx] (world s)).
Proof.
  destruct s as [[c t f n tr] w]. unfold no_faults. simpl. intros Hnf Hrows.
  unfold AccountDataMapper.Insert. no_fault_run Hnf. rewrite Hrows. simpl. gmap_simpl.
  rewrite <- ?app_assoc. reflexivity.
Qed.

Lemma Insert_run_absent (u : User) (uid keyword name : string) (s : Sys) :
  no_faults s →
  filter (λ r, account_is keyword name r = true) (accounts (committed (db s))) = [] →
  let tx := fresh (dom (txs (db s))) in
  let now := now_Unix s in
  let inserts :=
    InsertAccount uid keyword name now
      :: (if HasFlag u FlagWithUser then [InsertUser uid UserStatusNormal now now] else []) in
  AccountDataMapper.Insert u uid keyword name s
  = (None,
     after s (fold_left apply_stmt inserts (committed (db s))) (3 + length inserts)
       ([EvBegin tx; EvQuery OnDB TAccount] ++ map (EvExec (OnTx tx)) inserts
          ++ [EvCommit tx; EvRollback tx])
       (tick (world s))).
Proof.
  destruct s as [[c t f n tr] w]. unfold no_faults, now_Unix. simpl. intros Hnf Hrows.
  unfold AccountDataMapper.Insert. no_fault_run Hnf. rewrite Hrows. simpl.
  no_fault_run Hnf.
  destruct (HasFlag u FlagWithUser); simpl; no_fault_run Hnf; reflexivity.
Qed.

(** X8: when no call of the database fails, the account is not known and the
    uid generator of the facade returns [uid] without error, [Register]
    returns [uid] and nil and appends one account row for [uid], and under
    [FlagWithUser] one user row with status Normal, both with the same
    timestamp; the password and token tables are untouched.  A second
    [Register] of the account returns ErrAccountRegisterExists beside the uid
    it took from the generator, and changes nothing. *)
Theorem Register_registers_once
    (u : User) (account : user_Account) (s : Sys) (uid : string) (w1 : World) :
  no_faults s →
  account_rows (Keyword account) (Account account) (committed (db s)) = 0 →
  UIDGenerater u (world s) = ((uid, None), w1) →
  let now := now_of w1 in
  let s1 := snd (AccountDataMapper.Register u account s) in
  let st := committed (db s) in
  let st1 := committed (db s1) in
  fst (AccountDataMapper.Register u account s) = (uid, None)
  ∧ accounts st1
    = accounts st ++ [Build_AccountModel uid (Keyword account) (Account account) now]
  ∧ users st1
    = users st
        ++ (if HasFlag u FlagWithUser then [Build_UserModel uid now now UserStatusNormal]
            else [])
  ∧ passwords st1 = passwords st
  ∧ tokens st1 = tokens st
  ∧ ∀ uid2 w2,
      UIDGenerater u (world s1) = ((uid2, None), w2) →
      fst (AccountDataMapper.Register u account s1) = (uid2, Some ErrAccountRegisterExists)
      ∧ committed (db (snd (AccountDataMapper.Register u account s1))) = st1.
Proof.
  intros Hnf Hzero Hg. cbv zeta. apply count_where_zero in Hzero.
  assert (Hnf0 : no_faults (Build_Sys (db s) w1)) by exact Hnf.
  pose proof (Insert_run_absent u uid (Keyword account) (Account account)
                (Build_Sys (db s) w1) Hnf0 Hzero) as Hins.
  cbv zeta in Hins. unfold now_Unix in Hins. cbn [db world] in Hins.
  set (s1 := after _ _ _ _ _) in Hins.
  assert (Hreg : AccountDataMapper.Register u account s = ((uid, None), s1)).
  { unfold AccountDataMapper.Register, bind, generate. rewrite Hg. cbn match.
    rewrite Hins. reflexivity. }
  rewrite Hreg. cbn [fst snd].
  pose proof (FindOrInsert_inserts (HasFlag u FlagWithUser) uid (Keyword account)
                (Account account) (now_of w1) (committed (db s))) as (Ha & Hu & Hp & Ht).
  split; [reflexivity|]. split; [exact Ha|]. split; [exact Hu|].
  split; [exact Hp|]. split; [exact Ht|].
  intros uid2 w2 Hg2.
  unfold AccountDataMapper.Register, bind, generate. rewrite Hg2. cbn match.
  assert (Hnf1 : no_faults (Build_Sys (db s1) w2)) by exact Hnf.
  assert (Hrows : filter (λ r, account_is (Keyword account) (Account account) r = true)
                    (accounts (committed (db (Build_Sys (db s1) w2))))
                  = [Build_AccountModel uid (Keyword account) (Account account) (now_of w1)]).
  { unfold s1, after. cbn [db committed]. rewrite Ha.
    apply account_rows_after_insert. exact Hzero. }
  rewrite (Insert_run_present u uid2 (Keyword account) (Account account) _ _ _ Hnf1 Hrows).
  split; reflexivity.
Qed.

(** X8 (witness): [example_account] registered twice in the empty store, under
    [FlagWithUser]. *)
Lemma Register_twice_example :
  let s1 := snd (AccountDataMapper.Register example_user example_account example_sys) in
  fst (AccountDataMapper.Register example_user example_account example_sys) = ("uid-1", None)
  ∧ users (committed (db s1))
    = [Build_UserModel "uid-1" 1700000000 1700000000 UserStatusNormal]
  ∧ fst (AccountDataMapper.Register example_user example_account s1)
    = ("uid-1", Some ErrAccountRegisterExists)
  ∧ account_rows "email" "a@example.com"
      (committed (db (snd (AccountDataMapper.Register example_user example_account s1)))) = 1.
Proof.
  destruct (Register_registers_once example_user example_account example_sys "uid-1"
              example_world example_sys_no_faults)
    as (H1 & _ & H3 & _ & _ & H6); [vm_compute; reflexivity | reflexivity |].
  cbv zeta in H1, H3, H6. cbv zeta.
  destruct (H6 "uid-1" (world (snd (AccountDataMapper.Register example_user example_account
                                      example_sys)))) as [H7 H8]; [reflexivity|].
  rewrite H1, H3, H7, H8. split; [reflexivity|]. split; [reflexivity|].
  split; [reflexivity|]. vm_compute. reflexivity.
Defined.

(** ** Maps by uid *)

Lemma fold_insert_lookup {A V} (key : A → string) (val : A → V) (l : list A)
    (acc : gmap string V) (k : string) :
  fold_left (λ (m : gmap string V) (v : A), <[key v := val v]> m) l acc !! k
  = match last (filter (λ v, key v = k) l) with
    | Some v => Some (val v)
    | None => acc !! k
    end.
Proof.
  revert acc. induction l as [|x l IH]; intros acc; [reflexivity|].
  simpl. rewrite IH, filter_cons.
  destruct (decide (key x = k)) as [Hk|Hk].
  - destruct (filter (λ v, key v = k) l) as [|y ys] eqn:E.
    + simpl. rewrite Hk. apply lookup_insert_eq.
    + change (last (x :: y :: ys)) with (last (y :: ys)).
      destruct (last (y :: ys)) eqn:El; [reflexivity|].
      apply last_None in El. discriminate El.
  - destruct (last (filter (λ v, key v = k) l)); [reflexivity|].
    apply lookup_insert_ne. exact Hk.
Qed.

Lemma fold_insert_same {A V} (key : A → string) (val : A → V) (l : list A)
    (uid : string) (x : V) :
  l ≠ [] →
  Forall (λ v, key v = uid ∧ val v = x) l →
  fold_left (λ (m : gmap string V) (v : A), <[key v := val v]> m) l ∅ = {[uid := x]}.
Proof.
  intros Hne Hall. apply map_eq. intros k. rewrite fold_insert_lookup.
  rewrite Forall_forall in Hall.
  destruct (decide (k = uid)) as [->|Hk].
  - rewrite lookup_singleton_eq.
    assert (E : filter (λ v, key v = uid) l = l).
    { clear Hne. induction l as [|y l IH]; [reflexivity|].
      rewrite filter_cons, decide_True by (apply Hall; left).
      f_equal. apply IH. intros z Hz. apply Hall. right. exact Hz. }
    rewrite E. destruct (last l) as [v|] eqn:El.
    + apply last_Some_elem_of in El. f_equal. apply Hall. exact El.
    + apply last_None in El. contradiction.
  - rewrite lookup_singleton_ne by congruence.
    assert (E : filter (λ v, key v = k) l = []).
    { clear Hne. induction l as [|y l IH]; [reflexivity|].
      rewrite filter_cons, decide_False.
      - apply IH. intros z Hz. apply Hall. right. exact Hz.
      - intros Hy. apply Hk. rewrite <- Hy. apply Hall. left. }
    rewrite E. reflexivity.
Qed.

Lemma selected_rows {A B} (uid_of : A → string) (key : B → string) (f : A → B)
    (uids : list string) (k : string) (l : list A) :
  (∀ r, key (f r) = uid_of r) →
  filter (λ v, key v = k) (map f (filter (λ r, uid_in uid_of uids r = true) l))
  = if bool_decide (k ∈ uids) then map f (filter (λ r, uid_of r = k) l) else [].
Proof.
  intros Hkey. induction l as [|x l IH].
  - simpl. destruct (bool_decide (k ∈ uids)); reflexivity.
  - rewrite !filter_cons. unfold uid_in at 1.
    destruct (decide (bool_decide (uid_of x ∈ uids) = true)) as [Hin|Hin].
    + simpl. rewrite filter_cons, Hkey.
      apply bool_decide_eq_true in Hin.
      destruct (decide (uid_of x = k)) as [Hk|Hk].
      * rewrite IH. subst k. rewrite bool_decide_eq_true_2 by exact Hin. reflexivity.
      * exact IH.
    + rewrite IH. destruct (decide (uid_of x = k)) as [Hk|Hk]; [|reflexivity].
      subst k. apply not_true_is_false in Hin. rewrite Hin. reflexivity.
Qed.

Lemma Accounts_fold (models : list AccountModel) (acc : gmap string (list user_Account))
    (k : string) :
  fold_left
    (λ (result : gmap string (list user_Account)) (v : AccountModel),
       let result :=
         match result !! AccountModel_UID v with
         | None => <[AccountModel_UID v := []]> result
         | Some _ => result
         end in
       let account := Build_user_Account (AccountModel_Keyword v) (AccountModel_Account v) in
       <[AccountModel_UID v := default [] (result !! AccountModel_UID v) ++ [account]]> result)
    models acc !! k
  = match map account_of (filter (λ v, AccountModel_UID v = k) models) with
    | [] => acc !! k
    | l => Some (default [] (acc !! k) ++ l)
    end.
Proof.
  revert acc. induction models as [|v models IH]; intros acc; [reflexivity|].
  cbn [fold_left]. rewrite IH, filter_cons. cbv zeta.
  destruct (decide (AccountModel_UID v = k)) as [Hk|Hk].
  - subst k. cbn [map]. fold (account_of v).
    assert (E : default [] (match acc !! AccountModel_UID v with
                            | None => <[AccountModel_UID v := []]> acc
                            | Some _ => acc
                            end !! AccountModel_UID v)
                = default [] (acc !! AccountModel_UID v)).
    { destruct (acc !! AccountModel_UID v) as [l|] eqn:El.
      - rewrite El. reflexivity.
      - rewrite lookup_insert_eq. reflexivity. }
    rewrite E, lookup_insert_eq. simpl.
    destruct (map account_of (filter _ models)) as [|a l].
    + reflexivity.
    + rewrite <- app_assoc. reflexivity.
  - assert (E : <[AccountModel_UID v :=
                    default [] (match acc !! AccountModel_UID v with
                                | None => <[AccountModel_UID v := []]> acc
                                | Some _ => acc
                                end !! AccountModel_UID v) ++ [account_of v]]>
                  (match acc !! AccountModel_UID v with
                   | None => <[AccountModel_UID v := []]> acc
                   | Some _ => acc
                   end) !! k = acc !! k).
    { rewrite lookup_insert_ne by exact Hk.
      destruct (acc !! AccountModel_UID v); [reflexivity|].
      apply lookup_insert_ne. exact Hk. }
    unfold account_of in E at 1. rewrite E. reflexivity.
Qed.

Lemma map_map_account_of (l : list AccountModel) :
  map account_of
    (map (λ r, Build_AccountModel (AccountModel_UID r) (AccountModel_Keyword r)
                 (AccountModel_Account r) 0) l)
  = map account_of l.
Proof. rewrite map_map. reflexivity. Qed.

Lemma example_upserts_sys_no_faults : no_faults example_upserts_sys.
Proof. intros k. reflexivity. Qed.

(** X9: when its query does not fail, [Accounts] returns a map that takes
    each requested uid that owns account rows to the list of its (keyword,
    account) pairs, in the order of the table, and has no entry for any
    other uid: not for a requested uid without rows, and not for a uid that
    was not requested. *)
Theorem Accounts_groups_rows_by_uid (uids : list string) (s : Sys) :
  faults (db s) (calls (db s)) = None →
  ∃ m : gmap string (list user_Account),
    fst (AccountDataMapper.Accounts uids s) = (m, None)
    ∧ ∀ uid,
        m !! uid
        = match map account_of
                  (filter (λ r, AccountModel_UID r = uid) (accounts (committed (db s)))) with
          | [] => None
          | l => if bool_decide (uid ∈ uids) then Some l else None
          end.
Proof.
  destruct s as [[c t f n tr] w]. simpl. intros Hnf.
  unfold AccountDataMapper.Accounts, AccountDataMapper.FindAllByUID.
  destruct uids as [|u0 uids].
  - exists ∅. split; [reflexivity|]. intros uid. rewrite lookup_empty.
    destruct (map account_of _); reflexivity.
  - unfold_db. rewrite Hnf. simpl. eexists. split; [reflexivity|].
    intros uid. rewrite Accounts_fold, lookup_empty.
    rewrite (selected_rows AccountModel_UID AccountModel_UID _ (u0 :: uids) uid
               (accounts c)) by reflexivity.
    destruct (bool_decide (uid ∈ u0 :: uids)).
    + rewrite map_map_account_of. destruct (map account_of _); reflexivity.
    + simpl. destruct (map account_of _); reflexivity.
Qed.

(** X9 (witness): of three bindings, "uid-1" holds two; "uid-2" is not asked for
    and "uid-3" holds none. *)
Lemma Accounts_example :
  ∃ m, fst (AccountDataMapper.Accounts ["uid-1"; "uid-3"] example_accounts_sys) = (m, None)
       ∧ m !! "uid-1" = Some [example_account; example_phone]
       ∧ m !! "uid-2" = None
       ∧ m !! "uid-3" = None.
Proof.
  destruct (Accounts_groups_rows_by_uid ["uid-1"; "uid-3"] example_accounts_sys)
    as (m & Hm & Hl); [reflexivity|].
  exists m. split; [exact Hm|]. rewrite !Hl. vm_compute. repeat split.
Defined.

(** X10: when its query does not fail, [Tokens] returns a map that takes each
    requested uid with a token row to the token of its last row in the
    table, and has no entry for a uid without a row or a uid that was not
    requested. *)
Theorem Tokens_maps_uid_to_its_last_row (uids : list string) (s : Sys) :
  faults (db s) (calls (db s)) = None →
  ∃ m : gmap string string,
    fst (TokenDataMapper.Tokens uids s) = (m, None)
    ∧ ∀ uid,
        m !! uid
        = if bool_decide (uid ∈ uids)
          then token_token <$> last (filter (λ r, token_uid r = uid) (tokens (committed (db s))))
          else None.
Proof.
  destruct s as [[c t f n tr] w]. simpl. intros Hnf.
  unfold TokenDataMapper.Tokens, TokenDataMapper.FindAllByUID.
  destruct uids as [|u0 uids].
  - exists ∅. split; [reflexivity|]. intros uid. rewrite lookup_empty.
    rewrite bool_decide_eq_false_2 by apply not_elem_of_nil. reflexivity.
  - unfold_db. rewrite Hnf. simpl. eexists. split; [reflexivity|].
    intros uid.
    rewrite (fold_insert_lookup TokenModel_UID TokenModel_Token), lookup_empty.
    rewrite (selected_rows token_uid TokenModel_UID _ (u0 :: uids) uid (tokens c))
      by reflexivity.
    destruct (bool_decide (uid ∈ u0 :: uids)); [|reflexivity].
    induction (filter (λ r, token_uid r = uid) (tokens c)) as [|x [|y l] IH];
      [reflexivity | reflexivity | exact IH].
Qed.

(** X10 (witness): "uid-1" after its token was replaced by "t3". *)
Lemma Tokens_example :
  ∃ m, fst (TokenDataMapper.Tokens ["uid-1"; "uid-3"] example_upserts_sys) = (m, None)
       ∧ m !! "uid-1" = Some "t3"
       ∧ m !! "uid-2" = None
       ∧ m !! "uid-3" = None.
Proof.
  destruct (Tokens_maps_uid_to_its_last_row ["uid-1"; "uid-3"] example_upserts_sys)
    as (m & Hm & Hl); [reflexivity|].
  exists m. split; [exact Hm|]. rewrite !Hl. vm_compute. repeat split.
Defined.

(** X11: when its query does not fail, [Banned] returns a map that takes each
    requested uid with a user row to whether the status of its last row is
    UserStatusBanned (any other status counts as not banned), and has no
    entry for a uid without a row or a uid that was not requested. *)
Theorem Banned_maps_uid_to_its_last_status (uids : list string) (s : Sys) :
  faults (db s) (calls (db s)) = None →
  ∃ m : gmap string bool,
    fst (UserDataMapper.Banned uids s) = (m, None)
    ∧ ∀ uid,
        m !! uid
        = if bool_decide (uid ∈ uids)
          then (λ r, bool_decide (UserModel_Status r = UserStatusBanned))
                 <$> last (filter (λ r, UserModel_UID r = uid) (users (committed (db s))))
          else None.
Proof.
  destruct s as [[c t f n tr] w]. simpl. intros Hnf.
  unfold UserDataMapper.Banned, UserDataMapper.FindAllByUID.
  destruct uids as [|u0 uids].
  - exists ∅. split; [reflexivity|]. intros uid. rewrite lookup_empty.
    rewrite bool_decide_eq_false_2 by apply not_elem_of_nil. reflexivity.
  - unfold_db. rewrite Hnf. simpl. eexists. split; [reflexivity|].
    intros uid.
    rewrite (fold_insert_lookup UserModel_UID
               (λ v, (UserModel_Status v =? UserStatusBanned)%Z)), lookup_empty.
    rewrite (selected_rows UserModel_UID UserModel_UID _ (u0 :: uids) uid (users c))
      by reflexivity.
    destruct (bool_decide (uid ∈ u0 :: uids)); [|reflexivity].
    induction (filter (λ r, UserModel_UID r = uid) (users c)) as [|x [|y l] IH].
    + reflexivity.
    + simpl. f_equal. destruct (decide (UserModel_Status x = UserStatusBanned)) as [H|H].
      * rewrite bool_decide_eq_true_2 by exact H. apply Z.eqb_eq. exact H.
      * rewrite bool_decide_eq_false_2 by exact H. apply Z.eqb_neq. exact H.
    + exact IH.
Qed.

(** X11 (witness): a banned user, a normal one, one with status 2 and one without
    a row. *)
Lemma Banned_example :
  ∃ m, fst (UserDataMapper.Banned ["uid-1"; "uid-2"; "uid-3"; "uid-4"] example_upserts_sys)
       = (m, None)
       ∧ m !! "uid-1" = Some true
       ∧ m !! "uid-2" = Some false
       ∧ m !! "uid-3" = Some false
       ∧ m !! "uid-4" = None.
Proof.
  destruct (Banned_maps_uid_to_its_last_status ["uid-1"; "uid-2"; "uid-3"; "uid-4"]
              example_upserts_sys) as (m & Hm & Hl); [reflexivity|].
  exists m. split; [exact Hm|]. rewrite !Hl. vm_compute. repeat split.
Defined.

(** ** Ban *)

Lemma user_upsert_rows (uid : string) (status now : Z) (st : Store) :
  let rows :=
    filter (λ r, eqs (UserModel_UID r) uid = true)
      (users (upserted (UpdateUserWhereUID status now uid) (InsertUser uid status now now) st)) in
  rows ≠ [] ∧ Forall (λ r, UserModel_UID r = uid ∧ UserModel_Status r = status) rows.
Proof.
  unfold upserted. simpl.
  set (p := λ r : UserModel, eqs (UserModel_UID r) uid).
  set (f := λ r : UserModel,
              Build_UserModel (UserModel_UID r) (UserModel_CreatedTime r) now status).
  assert (Hf : ∀ r, p (f r) = p r) by reflexivity.
  assert (Hmap : Forall (λ r, UserModel_UID r = uid ∧ UserModel_Status r = status)
                   (map f (filter (λ r, p r = true) (users st)))).
  { apply Forall_forall. intros r Hr. apply list_elem_of_In, in_map_iff in Hr as (x & <- & Hx).
    apply list_elem_of_In, list_elem_of_filter in Hx as [Hx _]. split; [|reflexivity].
    simpl. apply eqs_true. exact Hx. }
  destruct (count_where p (users st) =? 0)%Z eqn:E; simpl.
  - rewrite filter_app, (filter_update_same p f _ Hf).
    rewrite filter_cons, filter_nil, decide_True by (unfold p; simpl; apply eqs_refl).
    split.
    + intros H. apply app_eq_nil in H as [_ H]. discriminate H.
    + apply Forall_app. split; [exact Hmap|]. repeat constructor.
  - rewrite (filter_update_same p f _ Hf). split; [|exact Hmap].
    intros H. apply map_eq_nil in H. apply count_where_zero in H.
    rewrite H in E. discriminate E.
Qed.

(** An UPDATE by uid leaves the rows of the other uids as they are. *)
Lemma filter_others_update_where {A} (uid_of : A → string) (f : A → A) (uid : string)
    (l : list A) :
  (∀ r, uid_of (f r) = uid_of r) →
  filter (λ r, uid_of r ≠ uid) (update_where (λ r, eqs (uid_of r) uid) f l)
  = filter (λ r, uid_of r ≠ uid) l.
Proof.
  intros Hf. unfold update_where. induction l as [|x l IH]; [reflexivity|].
  simpl. rewrite !filter_cons, IH.
  destruct (eqs (uid_of x) uid) eqn:E.
  - apply eqs_true in E.
    rewrite !decide_False; [reflexivity | | ]; rewrite ?Hf; intros H; apply H; exact E.
  - reflexivity.
Qed.

Lemma Banned_run (uid : string) (status : Z) (s : Sys) :
  faults (db s) (calls (db s)) = None →
  let rows := filter (λ r, eqs (UserModel_UID r) uid = true) (users (committed (db s))) in
  rows ≠ [] →
  Forall (λ r, UserModel_UID r = uid ∧ UserModel_Status r = status) rows →
  fst (UserDataMapper.Banned [uid] s) = ({[uid := (status =? UserStatusBanned)%Z]}, None).
Proof.
  destruct s as [[c t f n tr] w]. simpl. intros Hnf Hne Hall.
  unfold UserDataMapper.Banned, UserDataMapper.FindAllByUID. unfold_db. rewrite Hnf. simpl.
  rewrite filter_uid_in_singleton. f_equal.
  apply (fold_insert_same UserModel_UID (λ v, (UserModel_Status v =? UserStatusBanned)%Z)).
  - intros H. apply map_eq_nil in H. contradiction.
  - apply Forall_forall. intros v Hv. apply list_elem_of_In, in_map_iff in Hv as (r & <- & Hr).
    simpl. rewrite Forall_forall in Hall. apply list_elem_of_In, Hall in Hr as [Hu Hs].
    rewrite Hu, Hs. split; reflexivity.
Qed.

(** X12: when no call of the database fails, [Ban(uid, banned)] returns nil
    and [Banned] of [uid] then maps [uid] to [banned].  The call adds one
    user row when [uid] had none and keeps the number of its rows otherwise,
    keeps the user rows of every other uid, and leaves the other three
    tables as they were. *)
Theorem Ban_then_Banned (uid : string) (banned : bool) (s : Sys) :
  no_faults s →
  let s1 := snd (UserDataMapper.Ban uid banned s) in
  let st := committed (db s) in
  let st1 := committed (db s1) in
  fst (UserDataMapper.Ban uid banned s) = None
  ∧ fst (UserDataMapper.Banned [uid] s1) = ({[uid := banned]}, None)
  ∧ user_rows uid st1 = Z.max 1 (user_rows uid st)
  ∧ filter (λ r, UserModel_UID r ≠ uid) (users st1)
    = filter (λ r, UserModel_UID r ≠ uid) (users st)
  ∧ accounts st1 = accounts st ∧ passwords st1 = passwords st ∧ tokens st1 = tokens st.
Proof.
  intros Hnf. cbv zeta. unfold UserDataMapper.Ban.
  set (status := if banned then UserStatusBanned else UserStatusNormal).
  pose proof (run_upsert_no_faults (UpsertUser uid status) s Hnf) as H. simpl in H.
  destruct (UserDataMapper.InsertOrUpdate uid status s) as [r s1].
  destruct H as (-> & Hc & Hnf1 & _). cbn [fst snd].
  destruct (user_upsert_rows uid status (now_Unix s) (committed (db s))) as [Hne Hall].
  rewrite <- Hc in Hne, Hall.
  split; [reflexivity|]. split.
  - rewrite (Banned_run uid status s1 (Hnf1 _) Hne Hall).
    unfold status. destruct banned; reflexivity.
  - rewrite Hc. unfold upserted, user_rows. simpl.
    set (p := λ r : UserModel, eqs (UserModel_UID r) uid).
    set (f := λ r : UserModel,
                Build_UserModel (UserModel_UID r) (UserModel_CreatedTime r) (now_Unix s) status).
    assert (Hcount : count_where p (update_where p f (users (committed (db s))))
                     = count_where p (users (committed (db s))))
      by (apply count_where_update_where; reflexivity).
    assert (Hpos : 0 <= count_where p (users (committed (db s))))
      by (unfold count_where; lia).
    destruct (count_where p (users (committed (db s))) =? 0)%Z eqn:E; simpl.
    + apply Z.eqb_eq in E. rewrite count_where_app, Hcount, E.
      split; [|split; [|repeat split]].
      * unfold count_where. rewrite filter_cons, filter_nil, decide_True; [reflexivity|].
        unfold p. simpl. apply eqs_refl.
      * rewrite filter_app, (filter_others_update_where UserModel_UID f) by reflexivity.
        rewrite filter_cons, filter_nil, decide_False by (simpl; intros H; apply H; reflexivity).
        apply app_nil_r.
    + apply Z.eqb_neq in E. rewrite Hcount.
      split; [lia|]. split; [|repeat split].
      apply (filter_others_update_where UserModel_UID f). reflexivity.
Qed.

(** X12 (witness): lifting the ban of "uid-1". *)
Lemma Ban_then_Banned_example :
  let s1 := snd (UserDataMapper.Ban "uid-1" false example_upserts_sys) in
  fst (UserDataMapper.Banned ["uid-1"] example_upserts_sys) = ({["uid-1" := true]}, None)
  ∧ fst (UserDataMapper.Ban "uid-1" false example_upserts_sys) = None
  ∧ fst (UserDataMapper.Banned ["uid-1"] s1) = ({["uid-1" := false]}, None)
  ∧ user_rows "uid-1" (committed (db s1)) = 1.
Proof.
  destruct (Ban_then_Banned "uid-1" false example_upserts_sys example_upserts_sys_no_faults)
    as (H1 & H2 & H3 & _).
  cbv zeta. rewrite H1, H2, H3.
  split; [vm_compute; reflexivity|]. repeat split.
Defined.

(** X13: when no call of the database fails, the account is not known and the
    uid the generator returns has no user row, [AccountToUIDOrRegister]
    returns that uid, and [Banned] of it then maps it to false under
    [FlagWithUser] and has no entry for it otherwise. *)
Theorem new_user_is_not_banned
    (u : User) (account : user_Account) (s : Sys) (uid : string) (e : error) (w1 : World) :
  no_faults s →
  account_rows (Keyword account) (Account account) (committed (db s)) = 0 →
  UIDGenerater u (world s) = ((uid, e), w1) →
  user_rows uid (committed (db s)) = 0 →
  let r := AccountDataMapper.AccountToUIDOrRegister u account s in
  fst r = (uid, None)
  ∧ fst (UserDataMapper.Banned [uid] (snd r))
    = (if HasFlag u FlagWithUser then {[uid := false]} else ∅, None).
Proof.
  intros Hnf Hzero Hg Hrows. cbv zeta. apply count_where_zero in Hzero.
  unfold AccountDataMapper.AccountToUIDOrRegister.
  rewrite (FindOrInsert_run_absent u _ account s uid e w1 Hnf Hzero Hg). cbn [fst snd].
  set (s1 := after s _ _ _ _).
  assert (Hnf1 : no_faults s1) by (apply no_faults_after; exact Hnf).
  pose proof (FindOrInsert_inserts (HasFlag u FlagWithUser) uid (Keyword account)
                (Account account) (now_of w1) (committed (db s))) as (_ & Hu & _).
  apply count_where_zero in Hrows.
  assert (Hus : filter (λ r, eqs (UserModel_UID r) uid = true) (users (committed (db s1)))
                = if HasFlag u FlagWithUser
                  then [Build_UserModel uid (now_of w1) (now_of w1) UserStatusNormal]
                  else []).
  { unfold s1, after. cbn [db committed]. rewrite Hu, filter_app, Hrows.
    destruct (HasFlag u FlagWithUser); [|reflexivity].
    rewrite filter_cons, filter_nil, decide_True by (simpl; apply eqs_refl). reflexivity. }
  split; [reflexivity|].
  destruct (HasFlag u FlagWithUser).
  - rewrite (Banned_run uid UserStatusNormal s1 (Hnf1 _)); [reflexivity| |];
      rewrite Hus; [discriminate|]. repeat constructor.
  - destruct s1 as [[c t f n tr] w]. simpl in Hus. pose proof (Hnf1 n) as Hn. simpl in Hn.
    unfold UserDataMapper.Banned, UserDataMapper.FindAllByUID. unfold_db. rewrite Hn. simpl.
    rewrite filter_uid_in_singleton, Hus. reflexivity.
Qed.

(** X13 (witness): [example_account] in the empty store, under [FlagWithUser]. *)
Lemma new_user_is_not_banned_example :
  let r := AccountDataMapper.AccountToUIDOrRegister example_user example_account example_sys in
  fst r = ("uid-1", None)
  ∧ fst (UserDataMapper.Banned ["uid-1"] (snd r)) = ({["uid-1" := false]}, None).
Proof.
  destruct (new_user_is_not_banned example_user example_account example_sys "uid-1" None
              example_world example_sys_no_faults) as [H1 H2];
    [vm_compute; reflexivity | reflexivity | vm_compute; reflexivity |].
  cbv zeta. rewrite H1. split; [reflexivity|]. exact H2.
Defined.

(** ** Upserts and the other uids *)

Lemma upserted_others (call : Upsert) (now : Z) (st : Store) :
  let uid := upsert_uid call in
  let st' := upserted (upsert_update call now) (upsert_insert call now) st in
  accounts st' = accounts st
  ∧ filter (λ r, PasswordModel_UID r ≠ uid) (passwords st')
    = filter (λ r, PasswordModel_UID r ≠ uid) (passwords st)
  ∧ filter (λ r, token_uid r ≠ uid) (tokens st')
    = filter (λ r, token_uid r ≠ uid) (tokens st)
  ∧ filter (λ r, UserModel_UID r ≠ uid) (users st')
    = filter (λ r, UserModel_UID r ≠ uid) (users st).
Proof.
  unfold upserted.
  destruct call as [model|uid token|uid status]; simpl;
    match goal with
    | |- context [(?n =? 0)%Z] => destruct (n =? 0)%Z
    end; simpl; repeat split;
    rewrite ?filter_app, ?filter_cons, ?filter_nil;
    rewrite ?decide_False by (simpl; intros H; apply H; reflexivity);
    rewrite ?app_nil_r.
  - apply (filter_others_update_where PasswordModel_UID). reflexivity.
  - apply (filter_others_update_where PasswordModel_UID). reflexivity.
  - apply (filter_others_update_where token_uid). reflexivity.
  - apply (filter_others_update_where token_uid). reflexivity.
  - apply (filter_others_update_where UserModel_UID). reflexivity.
  - apply (filter_others_update_where UserModel_UID). reflexivity.
Qed.

(** X14: under every fault plan, an [InsertOrUpdate] of the password, token
    or user mapper leaves the account table as it was and keeps, in each of
    the three other tables, the rows of every uid other than its own, in
    their order. *)
Theorem upsert_changes_rows_of_its_uid_only (call : Upsert) (s : Sys) :
  let uid := upsert_uid call in
  let st := committed (db s) in
  let st' := committed (db (snd (run_upsert call s))) in
  accounts st' = accounts st
  ∧ filter (λ r, PasswordModel_UID r ≠ uid) (passwords st')
    = filter (λ r, PasswordModel_UID r ≠ uid) (passwords st)
  ∧ filter (λ r, token_uid r ≠ uid) (tokens st')
    = filter (λ r, token_uid r ≠ uid) (tokens st)
  ∧ filter (λ r, UserModel_UID r ≠ uid) (users st')
    = filter (λ r, UserModel_UID r ≠ uid) (users st).
Proof.
  cbv zeta. pose proof (run_upsert_commit call s) as H.
  destruct (run_upsert call s) as [[e|] s']; cbn [snd]; rewrite H.
  - repeat split.
  - apply upserted_others.
Qed.

(** ** Password rows *)

(** After an upsert of [model] the first row of its uid is [model]. *)
Lemma password_upsert_first (model : PasswordModel) (now : Z) (st : Store) :
  ∃ rest,
    filter (λ r, eqs (PasswordModel_UID r) (PasswordModel_UID model) = true)
      (passwords (upserted (upsert_update (UpsertPassword model) now)
                    (upsert_insert (UpsertPassword model) now) st))
    = model :: rest.
Proof.
  unfold upserted. simpl.
  set (p := λ r : PasswordModel, eqs (PasswordModel_UID r) (PasswordModel_UID model)).
  set (f := λ r : PasswordModel,
              Build_PasswordModel (PasswordModel_UID r) (PasswordModel_HashMethod model)
                (PasswordModel_Salt model) (PasswordModel_Password model)
                (PasswordModel_UpdatedTime model)).
  assert (Hf : ∀ r, p (f r) = p r) by reflexivity.
  destruct (count_where p (passwords st) =? 0)%Z eqn:E; simpl.
  - apply Z.eqb_eq, count_where_zero in E.
    rewrite filter_app, (filter_update_same p f _ Hf), E. simpl.
    rewrite filter_cons, filter_nil, decide_True by (unfold p; simpl; apply eqs_refl).
    exists []. destruct model; reflexivity.
  - rewrite (filter_update_same p f _ Hf).
    destruct (filter (λ r, p r = true) (passwords st)) as [|x xs] eqn:Hx.
    + apply count_where_zero in Hx. rewrite Hx in E. discriminate E.
    + simpl. eexists. f_equal.
      assert (Hin : x ∈ filter (λ r, p r = true) (passwords st)) by (rewrite Hx; left).
      apply list_elem_of_filter in Hin as [Hin _]. apply eqs_true in Hin.
      unfold f. rewrite Hin. destruct model; reflexivity.
Qed.

(** X15: when no call of the database fails, [InsertOrUpdate] of a model with
    a non-empty uid returns nil, and [Find] of that uid then returns the
    model, field by field; the call adds one row when the uid had none and
    keeps the number of its rows otherwise. *)
Theorem PasswordDataMapper_InsertOrUpdate_then_Find (model : PasswordModel) (s : Sys) :
  no_faults s →
  PasswordModel_UID model ≠ "" →
  let uid := PasswordModel_UID model in
  let s1 := snd (PasswordDataMapper.InsertOrUpdate model s) in
  fst (PasswordDataMapper.InsertOrUpdate model s) = None
  ∧ fst (PasswordDataMapper.Find uid s1) = (model, None)
  ∧ password_rows uid (committed (db s1)) = Z.max 1 (password_rows uid (committed (db s))).
Proof.
  intros Hnf Huid. cbv zeta.
  pose proof (run_upsert_no_faults (UpsertPassword model) s Hnf) as H. simpl in H.
  destruct (PasswordDataMapper.InsertOrUpdate model s) as [r s1].
  destruct H as (-> & Hc & Hnf1 & _). cbn [fst snd].
  split; [reflexivity|]. split.
  - destruct (password_upsert_first model (now_Unix s) (committed (db s))) as [rest Hrows].
    cbn [upsert_update upsert_insert] in Hrows. rewrite <- Hc in Hrows.
    unfold PasswordDataMapper.Find.
    destruct (eqs (PasswordModel_UID model) "") eqn:E; [apply eqs_true in E; contradiction|].
    destruct s1 as [[c t f n tr] w]. simpl in Hrows.
    pose proof (Hnf1 n) as Hn. simpl in Hn.
    unfold_db. rewrite Hn. simpl. rewrite Hrows. simpl. destruct model; reflexivity.
  - rewrite Hc. unfold upserted, password_rows. simpl.
    set (p := λ r : PasswordModel, eqs (PasswordModel_UID r) (PasswordModel_UID model)).
    set (f := λ r : PasswordModel,
                Build_PasswordModel (PasswordModel_UID r) (PasswordModel_HashMethod model)
                  (PasswordModel_Salt model) (PasswordModel_Password model)
                  (PasswordModel_UpdatedTime model)).
    assert (Hcount : count_where p (update_where p f (passwords (committed (db s))))
                     = count_where p (passwords (committed (db s))))
      by (apply count_where_update_where; reflexivity).
    assert (Hpos : 0 <= count_where p (passwords (committed (db s))))
      by (unfold count_where; lia).
    destruct (count_where p (passwords (committed (db s))) =? 0)%Z eqn:E; simpl.
    + apply Z.eqb_eq in E. rewrite count_where_app, Hcount, E.
      unfold count_where. rewrite filter_cons, filter_nil, decide_True; [reflexivity|].
      unfold p. simpl. apply eqs_refl.
    + apply Z.eqb_neq in E. rewrite Hcount. lia.
Qed.

(** X15 (witness): a model for "uid-1" in the empty store. *)
Lemma PasswordDataMapper_InsertOrUpdate_then_Find_example :
  let model := Build_PasswordModel "uid-1" "sha256" "salt" [x01; x02] 1700000000 in
  let s1 := snd (PasswordDataMapper.InsertOrUpdate model example_sys) in
  fst (PasswordDataMapper.Find "uid-1" s1) = (model, None)
  ∧ password_rows "uid-1" (committed (db s1)) = 1.
Proof.
  destruct (PasswordDataMapper_InsertOrUpdate_then_Find
              (Build_PasswordModel "uid-1" "sha256" "salt" [x01; x02] 1700000000) example_sys
              example_sys_no_faults) as (_ & H2 & H3); [discriminate|].
  cbv zeta. cbv zeta in H2, H3. cbn [PasswordModel_UID] in H2, H3. rewrite H2, H3.
  split; reflexivity.
Defined.

(** X16: [VerifyPassword] hashes with the method recorded in the row, not
    with the method of the facade that verifies: a password stored by a
    successful [UpdatePassword] for a non-empty uid verifies, when the query
    does not fail, through any facade with the same static key, whatever its
    hash method and generators, and under any registry that extends the one
    used to store it. *)
Theorem stored_password_verifies_under_its_own_method
    (registry registry' : gmap string HashFunc) (u u' : User) (uid p : string) (s s1 : Sys) :
  uid ≠ "" →
  PasswordDataMapper.UpdatePassword registry u uid p s = (None, s1) →
  faults (db s1) (calls (db s1)) = None →
  registry ⊆ registry' →
  PasswordKey u' = PasswordKey u →
  fst (PasswordDataMapper.VerifyPassword registry' u' uid p s1) = (true, None)
  ∧ ∃ row rest,
      filter (λ r, eqs (PasswordModel_UID r) uid = true) (passwords (committed (db s1)))
      = row :: rest
      ∧ PasswordModel_HashMethod row = HashMethod u.
Proof.
  intros Huid Hup Hnf Hsub Hkey.
  destruct (UpdatePassword_success registry u uid p s s1 Hup)
    as (hash & salt & hashed & now & Hreg & Hsalt & Hhash & Hc).
  cbv zeta in Hc.
  destruct (password_upsert_first (Build_PasswordModel uid (HashMethod u) salt hashed now) now
              (committed (db s))) as [rest Hrows].
  rewrite <- Hc in Hrows. cbn [PasswordModel_UID] in Hrows.
  split.
  - rewrite (VerifyPassword_row registry' u' uid p s1 _ rest Hnf Huid Hrows).
    cbn [PasswordModel_HashMethod PasswordModel_Salt PasswordModel_Password].
    rewrite (lookup_weaken _ _ _ _ Hreg Hsub), Hkey, Hhash.
    rewrite bool_decide_eq_true_2 by reflexivity. reflexivity.
  - eexists _, rest. split; [exact Hrows | reflexivity].
Qed.

(** X16 (witness): a password stored under "sha256" verifies through a facade
    configured for "crypt8", under the registry that holds both. *)
Lemma stored_password_example :
  let s1 :=
    snd (PasswordDataMapper.UpdatePassword HashFuncMap example_user "uid-1" "secret"
           example_sys) in
  HashMethod example_user_crypt8 ≠ HashMethod example_user
  ∧ fst (PasswordDataMapper.VerifyPassword example_registry example_user_crypt8 "uid-1"
           "secret" s1) = (true, None).
Proof.
  intros s1.
  assert (Hup : PasswordDataMapper.UpdatePassword HashFuncMap example_user "uid-1" "secret"
                  example_sys = (None, s1)).
  { unfold s1. rewrite (surjective_pairing (PasswordDataMapper.UpdatePassword _ _ _ _ _)) at 1.
    apply pair_equal_spec. split; [vm_compute; reflexivity | reflexivity]. }
  assert (Huid : "uid-1" ≠ "") by discriminate.
  assert (Hnf : faults (db s1) (calls (db s1)) = None) by (vm_compute; reflexivity).
  assert (Hsub : HashFuncMap ⊆ example_registry)
    by (apply insert_subseteq; vm_compute; reflexivity).
  destruct (stored_password_verifies_under_its_own_method HashFuncMap example_registry
              example_user example_user_crypt8 "uid-1" "secret" example_sys s1
              Huid Hup Hnf Hsub eq_refl) as [H _].
  split; [discriminate | exact H].
Defined.

Lemma UpdatePassword_run (registry : gmap string HashFunc) (u : User)
    (uid password salt : string) (w1 : World) (hash : HashFunc) (hashed : list byte)
    (s : Sys) :
  no_faults s →
  SaltGenerater u (world s) = ((salt, None), w1) →
  registry !! HashMethod u = Some hash →
  hash (PasswordKey u) salt password = (hashed, None) →
  let model := Build_PasswordModel uid (HashMethod u) salt hashed (now_of w1) in
  let r := PasswordDataMapper.UpdatePassword registry u uid password s in
  fst r = None
  ∧ no_faults (snd r)
  ∧ committed (db (snd r))
    = upserted (upsert_update (UpsertPassword model) (now_of w1))
        (upsert_insert (UpsertPassword model) (now_of w1)) (committed (db s)).
Proof.
  intros Hnf Hg Hreg Hh. cbv zeta.
  unfold PasswordDataMapper.UpdatePassword, bind, generate. rewrite Hg. cbn match.
  rewrite Hreg, Hh. unfold time_Now_Unix, time_Now, bind, ret. simpl.
  match goal with
  | |- context [PasswordDataMapper.InsertOrUpdate ?m ?s0] =>
      pose proof (run_upsert_no_faults (UpsertPassword m) s0 Hnf) as H; simpl in H;
      destruct (PasswordDataMapper.InsertOrUpdate m s0) as [r s']
  end.
  destruct H as (-> & Hc & Hnf' & _). simpl. repeat split; assumption.
Qed.

(** X17: the defaults of [New] work together.  With the initial registry, a
    random source that can be read and a database that does not fail,
    [UpdatePassword] through a facade built by [New] returns nil for a
    non-empty uid, [VerifyPassword] of the same password then returns
    (true, nil), and the first row of the uid records the method "sha256",
    a salt of 64 characters and a hash of 64 bytes. *)
Theorem New_defaults_store_a_verifiable_password
    (uuid_NewV1 : World → string * World) (rd : Reader) (flag : Z) (uid p : string)
    (s : Sys) :
  no_faults s →
  read_error rd (seed (world s)) = None →
  uid ≠ "" →
  let u := New uuid_NewV1 rd flag in
  let r := PasswordDataMapper.UpdatePassword HashFuncMap u uid p s in
  fst r = None
  ∧ fst (PasswordDataMapper.VerifyPassword HashFuncMap u uid p (snd r)) = (true, None)
  ∧ ∃ row rest,
      filter (λ r, eqs (PasswordModel_UID r) uid = true) (passwords (committed (db (snd r))))
      = row :: rest
      ∧ PasswordModel_HashMethod row = "sha256"
      ∧ String.length (PasswordModel_Salt row) = 64%nat
      ∧ length (PasswordModel_Password row) = 64%nat.
Proof.
  intros Hnf Hrd Huid. cbv zeta.
  pose proof (RandomBytes_run rd RandomBytesLength (world s) Hrd) as (salt & Hsalt & Hlen).
  set (u := New uuid_NewV1 rd flag).
  assert (Hreg : HashFuncMap !! HashMethod u = Some sha256_HashFunc)
    by apply lookup_singleton_eq.
  set (hashed := fst (sha256_HashFunc (PasswordKey u) salt p)).
  assert (Hh : sha256_HashFunc (PasswordKey u) salt p = (hashed, None)) by reflexivity.
  destruct (UpdatePassword_run HashFuncMap u uid p salt _ sha256_HashFunc hashed s
              Hnf Hsalt Hreg Hh) as (R & Hnf1 & Hc).
  set (s1 := snd (PasswordDataMapper.UpdatePassword HashFuncMap u uid p s)) in *.
  match type of Hc with
  | _ = upserted (upsert_update (UpsertPassword ?m) ?now) _ _ =>
      destruct (password_upsert_first m now (committed (db s))) as [rest Hrows]
  end.
  rewrite <- Hc in Hrows. cbn [PasswordModel_UID] in Hrows.
  split; [exact R|]. split.
  - rewrite (VerifyPassword_row HashFuncMap u uid p s1 _ rest (Hnf1 _) Huid Hrows).
    cbn [PasswordModel_HashMethod PasswordModel_Salt PasswordModel_Password].
    rewrite Hreg, Hh. rewrite bool_decide_eq_true_2 by reflexivity. reflexivity.
  - eexists _, rest. split; [exact Hrows|].
    cbn [PasswordModel_HashMethod PasswordModel_Salt PasswordModel_Password].
    split; [reflexivity|]. split; [exact Hlen|].
    unfold hashed, sha256_HashFunc. cbn [fst].
    rewrite bytes_of_string_length, EncodeToString_length.
    unfold sha256.Sum. rewrite app_nil_l, Sum256_length. reflexivity.
Qed.

(** X17 (witness): the password "secret" for "uid-1" in the empty store. *)
Lemma New_defaults_example :
  let u := New example_uuid example_reader FlagWithPassword in
  let r := PasswordDataMapper.UpdatePassword HashFuncMap u "uid-1" "secret" example_sys in
  fst r = None
  ∧ fst (PasswordDataMapper.VerifyPassword HashFuncMap u "uid-1" "secret" (snd r))
    = (true, None)
  ∧ map (λ row, String.length (PasswordModel_Salt row)) (passwords (committed (db (snd r))))
    = [64%nat].
Proof.
  destruct (New_defaults_store_a_verifiable_password example_uuid example_reader
              FlagWithPassword "uid-1" "secret" example_sys example_sys_no_faults)
    as (H1 & H2 & _); [reflexivity | discriminate |].
  cbv zeta. split; [exact H1|]. split; [exact H2|]. vm_compute. reflexivity.
Defined.

(** ** Tokens of the default generator *)

Lemma TokenDataMapper_InsertOrUpdate_world (uid token : string) (s : Sys) :
  no_faults s → world (snd (TokenDataMapper.InsertOrUpdate uid token s)) = tick (world s).
Proof.
  destruct s as [[c t f n tr] w]. unfold no_faults. simpl. intros Hnf.
  unfold TokenDataMapper.InsertOrUpdate. no_fault_run Hnf.
  match goal with
  | |- context [if negb ?b then _ else _] => destruct b eqn:?; simpl
  end;
  no_fault_run Hnf; reflexivity.
Qed.

(** X18: with the default token generator [Timestamp] and a database that
    does not fail, [Revoke] returns the decimal reading of the clock in
    nanoseconds; a second [Revoke] returns the reading taken two readings
    later (the upsert reads the clock once in between), and the two tokens
    differ exactly when these two readings differ. *)
Theorem Revoke_with_Timestamp_differs_iff_clock_does (u : User) (uid : string) (s : Sys) :
  TokenGenerater u = Timestamp →
  no_faults s →
  let w := world s in
  let r1 := TokenDataMapper.Revoke u uid s in
  let r2 := TokenDataMapper.Revoke u uid (snd r1) in
  fst r1 = (pretty (clock w (ticks w)), None)
  ∧ fst r2 = (pretty (clock w (2 + ticks w)), None)
  ∧ (fst (fst r1) ≠ fst (fst r2) ↔ clock w (ticks w) ≠ clock w (2 + ticks w)).
Proof.
  intros Hgen Hnf. cbv zeta.
  assert (Hg1 : TokenGenerater u (world s)
                = ((pretty (clock (world s) (ticks (world s))), None), tick (world s)))
    by (rewrite Hgen; reflexivity).
  destruct (Revoke_run u uid _ _ s Hnf Hg1) as (R1 & Hnf1 & _).
  assert (Hw1 : world (snd (TokenDataMapper.Revoke u uid s)) = tick (tick (world s))).
  { unfold TokenDataMapper.Revoke, bind, generate. rewrite Hg1. cbn match.
    pose proof (TokenDataMapper_InsertOrUpdate_world uid
                  (pretty (clock (world s) (ticks (world s))))
                  (Build_Sys (db s) (tick (world s))) Hnf) as H.
    destruct (TokenDataMapper.InsertOrUpdate uid _ _) as [r s']. exact H. }
  set (s1 := snd (TokenDataMapper.Revoke u uid s)) in *.
  assert (Hg2 : TokenGenerater u (world s1)
                = ((pretty (clock (world s) (2 + ticks (world s))), None),
                   tick (world s1)))
    by (rewrite Hgen, Hw1; reflexivity).
  destruct (Revoke_run u uid _ _ s1 Hnf1 Hg2) as (R2 & _ & _).
  split; [exact R1|]. split; [exact R2|].
  rewrite R1, R2. cbn [fst]. split.
  - intros H E. apply H. rewrite E. reflexivity.
  - intros H E. apply H. apply (inj pretty) in E. exact E.
Qed.

(** X18 (witness): a clock that advances by one nanosecond at every reading. *)
Lemma Revoke_with_Timestamp_example :
  let r1 := TokenDataMapper.Revoke example_user "uid-1" example_sys in
  let r2 := TokenDataMapper.Revoke example_user "uid-1" (snd r1) in
  fst r1 = ("1700000000000000000", None)
  ∧ fst r2 = ("1700000000000000002", None)
  ∧ fst (fst r1) ≠ fst (fst r2).
Proof.
  destruct (Revoke_with_Timestamp_differs_iff_clock_does example_user "uid-1" example_sys)
    as (H1 & H2 & H3); [reflexivity | exact example_sys_no_faults |].
  cbv zeta. split; [rewrite H1; vm_compute; reflexivity|].
  split; [rewrite H2; vm_compute; reflexivity|].
  apply H3. vm_compute. discriminate.
Defined.

(** X19: when the token generator succeeds and [Revoke] returns an error,
    whatever call of the database failed, the token returned beside the
    error is the one just generated, and the committed store is as it was:
    the token returned is not the one stored. *)
Theorem Revoke_failure_returns_unstored_token
    (u : User) (uid token : string) (w1 : World) (s : Sys) :
  TokenGenerater u (world s) = ((token, None), w1) →
  snd (fst (TokenDataMapper.Revoke u uid s)) ≠ None →
  fst (fst (TokenDataMapper.Revoke u uid s)) = token
  ∧ committed (db (snd (TokenDataMapper.Revoke u uid s))) = committed (db s).
Proof.
  intros Hg. unfold TokenDataMapper.Revoke, bind, generate. rewrite Hg. cbn match.
  pose proof (run_upsert_commit (UpsertToken uid token) (Build_Sys (db s) w1)) as H.
  simpl in H.
  destruct (TokenDataMapper.InsertOrUpdate uid token _) as [[e|] s']; simpl.
  - intros _. rewrite H. split; reflexivity.
  - intros Hne. contradiction.
Qed.

(** X19 (witness): the UPDATE of the upsert fails in the empty store. *)
Lemma Revoke_failure_example :
  fst (TokenDataMapper.Revoke example_user_fixed_token "uid-1" example_failing_sys)
  = ("token", Some (ErrStorage 7))
  ∧ tokens (committed (db (snd (TokenDataMapper.Revoke example_user_fixed_token "uid-1"
                                  example_failing_sys)))) = [].
Proof.
  destruct (Revoke_failure_returns_unstored_token example_user_fixed_token "uid-1" "token"
              example_world example_failing_sys) as [H1 H2];
    [reflexivity | vm_compute; discriminate |].
  rewrite H2. split; [|reflexivity]. vm_compute. reflexivity.
Defined.

(** ** Atomicity of the remaining mutations *)

Lemma atomic_no_call (e : error) (d : DBState) (w w' : World) :
  atomic e (Build_Sys d w) (Build_Sys d w').
Proof.
  exists []. simpl. rewrite app_nil_r. repeat split; try reflexivity.
  intros c H. apply elem_of_nil in H. contradiction.
Qed.

Lemma Revoke_atomic (u : User) (uid : string) (s : Sys) :
  let (r, s') := TokenDataMapper.Revoke u uid s in atomic (snd r) s s'.
Proof.
  unfold TokenDataMapper.Revoke, bind, generate.
  destruct (TokenGenerater u (world s)) as [[token o] w'] eqn:Hg.
  destruct o as [e|]; simpl.
  - destruct s as [d w]. apply atomic_no_call.
  - pose proof (TokenDataMapper_InsertOrUpdate_atomic uid token (Build_Sys (db s) w')) as H.
    destruct (TokenDataMapper.InsertOrUpdate uid token _) as [r s']. exact H.
Qed.

Lemma UpdatePassword_atomic (registry : gmap string HashFunc) (u : User)
    (uid password : string) (s : Sys) :
  let (r, s') := PasswordDataMapper.UpdatePassword registry u uid password s in atomic r s s'.
Proof.
  unfold PasswordDataMapper.UpdatePassword, bind, generate.
  destruct (SaltGenerater u (world s)) as [[salt o] w'] eqn:Hg.
  destruct o as [e|]; simpl; [destruct s as [d w]; apply atomic_no_call|].
  destruct (registry !! HashMethod u) as [hash|]; [|destruct s as [d w]; apply atomic_no_call].
  destruct (hash (PasswordKey u) salt password) as [hashed [e|]];
    [destruct s as [d w]; apply atomic_no_call|].
  unfold time_Now_Unix, time_Now, bind, ret. simpl.
  match goal with
  | |- context [PasswordDataMapper.InsertOrUpdate ?m ?s0] =>
      pose proof (PasswordDataMapper_InsertOrUpdate_atomic m s0) as H;
      destruct (PasswordDataMapper.InsertOrUpdate m s0) as [r s']
  end.
  exact H.
Qed.

(** X20: [Unbind], [UnbindAccount], [BindAccount], [AccountToUIDOrRegister],
    [Ban], [Revoke] and [UpdatePassword] are atomic on failure under every
    fault plan: a call of the database that fails is the error returned, a
    returned error (that of a generator, of the hash function or of a missing
    hash method included) leaves the committed store unchanged, and no
    transaction is left open. *)
Theorem remaining_mutations_atomic_on_failure
    (registry : gmap string HashFunc) (u : User) (uid password : string)
    (account : user_Account) (banned : bool) (s : Sys) :
  (let (r, s') := AccountDataMapper.Unbind uid account s in atomic r s s')
  ∧ (let (r, s') := AccountDataMapper.UnbindAccount uid account s in atomic r s s')
  ∧ (let (r, s') := AccountDataMapper.BindAccount uid account s in atomic r s s')
  ∧ (let (r, s') := AccountDataMapper.AccountToUIDOrRegister u account s in
     atomic (snd r) s s')
  ∧ (let (r, s') := UserDataMapper.Ban uid banned s in atomic r s s')
  ∧ (let (r, s') := TokenDataMapper.Revoke u uid s in atomic (snd r) s s')
  ∧ (let (r, s') := PasswordDataMapper.UpdatePassword registry u uid password s in
     atomic r s s').
Proof.
  split; [apply Unbind_atomic|].
  split; [apply Unbind_atomic|].
  split; [apply Bind_atomic|].
  split; [apply FindOrInsert_atomic|].
  split; [apply UserDataMapper_InsertOrUpdate_atomic|].
  split; [apply Revoke_atomic|].
  apply UpdatePassword_atomic.
Qed.

(** ** Lookups *)

(** X21: under every fault plan and whatever they return, the lookups ([Find]
    and [FindAllByUID] of the mappers, [AccountToUID], [Accounts],
    [VerifyPassword], [Tokens], [Banned]) leave the committed store, the
    open transactions and the world as they were and make at most one call
    of the database; [Accounts], [Tokens] and [Banned] of an empty uid list
    return the empty map and make no call at all. *)
Theorem lookups_do_not_change_the_store
    (registry : gmap string HashFunc) (u : User) (uid keyword name password : string)
    (account : user_Account) (uids : list string) (s : Sys) :
  read_only s (snd (AccountDataMapper.Find keyword name s))
  ∧ read_only s (snd (AccountDataMapper.AccountToUID account s))
  ∧ read_only s (snd (AccountDataMapper.FindAllByUID uids s))
  ∧ read_only s (snd (AccountDataMapper.Accounts uids s))
  ∧ read_only s (snd (PasswordDataMapper.Find uid s))
  ∧ read_only s (snd (PasswordDataMapper.VerifyPassword registry u uid password s))
  ∧ read_only s (snd (TokenDataMapper.FindAllByUID uids s))
  ∧ read_only s (snd (TokenDataMapper.Tokens uids s))
  ∧ read_only s (snd (UserDataMapper.FindAllByUID uids s))
  ∧ read_only s (snd (UserDataMapper.Banned uids s))
  ∧ AccountDataMapper.Accounts [] s = ((∅, None), s)
  ∧ TokenDataMapper.Tokens [] s = ((∅, None), s)
  ∧ UserDataMapper.Banned [] s = ((∅, None), s).
Proof.
  destruct s as [[c t f n tr] w].
  split; [unfold AccountDataMapper.Find; read_only_steps|].
  split; [unfold AccountDataMapper.AccountToUID, AccountDataMapper.Find; read_only_steps|].
  split; [unfold AccountDataMapper.FindAllByUID; destruct uids; read_only_steps|].
  split; [unfold AccountDataMapper.Accounts, AccountDataMapper.FindAllByUID; destruct uids;
          read_only_steps|].
  split; [unfold PasswordDataMapper.Find; read_only_steps|].
  split; [unfold PasswordDataMapper.VerifyPassword, PasswordDataMapper.Find;
          read_only_steps|].
  split; [unfold TokenDataMapper.FindAllByUID; destruct uids; read_only_steps|].
  split; [unfold TokenDataMapper.Tokens, TokenDataMapper.FindAllByUID; destruct uids;
          read_only_steps|].
  split; [unfold UserDataMapper.FindAllByUID; destruct uids; read_only_steps|].
  split; [unfold UserDataMapper.Banned, UserDataMapper.FindAllByUID; destruct uids;
          read_only_steps|].
  repeat split.
Qed.

(** X22: when the query fails, a lookup with non-empty arguments returns the
    error of the database beside the zero value of its result: the zero
    model, the empty uid, no models, the empty map; [VerifyPassword] returns
    (false, that error), not ErrUserNotFound. *)
Theorem lookups_return_the_storage_error
    (registry : gmap string HashFunc) (u : User) (uid keyword name password : string)
    (uid0 : string) (uids : list string) (c : nat) (s : Sys) :
  faults (db s) (calls (db s)) = Some c →
  keyword ≠ "" →
  name ≠ "" →
  uid ≠ "" →
  let e := Some (ErrStorage c) in
  fst (AccountDataMapper.Find keyword name s) = (AccountModel_zero, e)
  ∧ fst (AccountDataMapper.AccountToUID (Build_user_Account keyword name) s) = ("", e)
  ∧ fst (AccountDataMapper.FindAllByUID (uid0 :: uids) s) = ([], e)
  ∧ fst (AccountDataMapper.Accounts (uid0 :: uids) s) = (∅, e)
  ∧ fst (PasswordDataMapper.VerifyPassword registry u uid password s) = (false, e)
  ∧ fst (TokenDataMapper.FindAllByUID (uid0 :: uids) s) = ([], e)
  ∧ fst (TokenDataMapper.Tokens (uid0 :: uids) s) = (∅, e)
  ∧ fst (UserDataMapper.FindAllByUID (uid0 :: uids) s) = ([], e)
  ∧ fst (UserDataMapper.Banned (uid0 :: uids) s) = (∅, e).
Proof.
  destruct s as [[st t f n tr] w]. simpl. intros Hf Hk Hn Hu.
  assert (Ek : eqs keyword "" = false)
    by (apply not_true_is_false; intros H; apply eqs_true in H; contradiction).
  assert (En : eqs name "" = false)
    by (apply not_true_is_false; intros H; apply eqs_true in H; contradiction).
  assert (Eu : eqs uid "" = false)
    by (apply not_true_is_false; intros H; apply eqs_true in H; contradiction).
  unfold AccountDataMapper.AccountToUID, AccountDataMapper.Find,
    AccountDataMapper.Accounts, AccountDataMapper.FindAllByUID,
    PasswordDataMapper.VerifyPassword, PasswordDataMapper.Find,
    TokenDataMapper.Tokens, TokenDataMapper.FindAllByUID,
    UserDataMapper.Banned, UserDataMapper.FindAllByUID.
  simpl. rewrite Ek, En, Eu. unfold_db. rewrite Hf. simpl. repeat split.
Qed.

(** X22 (witness): a database whose every call fails with code 7. *)
Lemma lookups_storage_error_example :
  fst (AccountDataMapper.AccountToUID example_account example_unreachable_sys)
  = ("", Some (ErrStorage 7))
  ∧ fst (PasswordDataMapper.VerifyPassword HashFuncMap example_user "uid-1" "secret"
           example_unreachable_sys) = (false, Some (ErrStorage 7))
  ∧ fst (UserDataMapper.Banned ["uid-1"] example_unreachable_sys) = (∅, Some (ErrStorage 7)).
Proof.
  destruct (lookups_return_the_storage_error HashFuncMap example_user "uid-1" "email"
              "a@example.com" "secret" "uid-1" [] 7 example_unreachable_sys)
    as (_ & H2 & _ & _ & H5 & _ & _ & _ & H9);
    [reflexivity | discriminate | discriminate | discriminate |].
  split; [exact H2|]. split; [exact H5 | exact H9].
Defined.
